(** * Rollback of an ECS application and the wait stage plugin

    A shallow embedding of
    - the ECS rollback executor ([Execute], [ensureRollback], [rollback],
      [rollbackELB]), and
    - the wait plugin ([BuildPipelineSyncStages], [FetchDefinedStages]),
    followed by the properties of both.

    Remote operations are modelled by explicit state passing: the state of
    everything outside the executor (the platform, the clock, pending stop
    requests) is an abstract type [W], a platform client is a record of
    transition functions on [W], and every run also produces the list of the
    events it caused (client calls with their responses, metadata reads, log
    lines), oldest first. *)

From Stdlib Require Import ZArith.
From stdpp Require Import gmap strings list.

Set Default Proof Using "Type".

(* ===================================================================== *)
(** ** Data model *)
(* ===================================================================== *)

(** Go's [error] values.  [ErrWrap] is an error built with [%w] around a
    cause; [errors_Is] follows the chain of causes like [errors.Is]. *)
Inductive error : Type :=
| ErrNotFound
| ErrOther (msg : string)
| ErrWrap (msg : string) (cause : error).

Fixpoint error_eqb (a b : error) : bool :=
  match a, b with
  | ErrNotFound, ErrNotFound => true
  | ErrOther m, ErrOther n => String.eqb m n
  | ErrWrap m c, ErrWrap n d => String.eqb m n && error_eqb c d
  | _, _ => false
  end.

Fixpoint errors_Is (err target : error) : bool :=
  error_eqb err target ||
  match err with
  | ErrWrap _ cause => errors_Is cause target
  | _ => false
  end.

Module model.

(** [model.StageStatus].  Modelled from the spec: the states of a stage
    (not started, running, success, failure, cancelled); the enumeration is
    declared in another file of the package, the executor names
    [StageStatus_STAGE_SUCCESS] and [StageStatus_STAGE_FAILURE]. *)
Inductive StageStatus : Type :=
| StageStatus_STAGE_NOT_STARTED_YET
| StageStatus_STAGE_RUNNING
| StageStatus_STAGE_SUCCESS
| StageStatus_STAGE_FAILURE
| StageStatus_STAGE_CANCELLED.


Record PipelineStage : Type := {
  Name : string;
  Status : StageStatus;
}.

Record Deployment : Type := {
  RunningCommitHash : string;
}.

End model.

(** The AWS SDK descriptors the executor passes around.  The SDK declares
    their fields as [*string]; the fields the source dereferences
    ([*x.ServiceName], [*x.Family], [*x.TaskSetArn], [*x.TargetGroupArn])
    are taken as present, so they are plain strings here. *)
Module types.

Record TaskDefinition : Type := {
  Family : string;
  TaskDefinitionArn : string;
}.

Record Service : Type := {
  ServiceName : string;
  ServiceArn : string;
}.

Record TaskSet : Type := {
  TaskSetArn : string;
  TaskSetStatus : string;
}.

Record LoadBalancer : Type := {
  TargetGroupArn : string;
  ContainerName : string;
  ContainerPort : Z;
}.

End types.

Module config.

Record PlatformProviderECSConfig : Type := {
  Region : string;
  Profile : string;
}.

Record ECSDeploymentInput : Type := {
  ServiceDefinitionFile : string;
  TaskDefinitionFile : string;
}.

Record ECSApplicationSpec : Type := {
  Input : ECSDeploymentInput;
}.

Record Config : Type := {
  ECSApplicationSpec_ : option ECSApplicationSpec;   (* nil when absent *)
}.

End config.

Module deploysource.

Record DeploySource : Type := {
  ApplicationConfig : config.Config;
}.

End deploysource.

Module provider.

(** One entry of [provider.RoutingTrafficConfig]; [Weight] is a Go [int]. *)
Record RoutingTrafficEntry : Type := {
  TargetGroupArn : string;
  Weight : Z;
}.

Definition RoutingTrafficConfig : Type := list RoutingTrafficEntry.

(** [provider.Client], the part the rollback uses.  Every operation is one
    remote call: it moves the outside world from one state to the next and
    answers.  A Go result [(v, err)] is a sum: by Go's convention a
    non-nil error comes with the zero value, and a nil error with a usable
    one.  [ModifyListeners] is the exception, it hands back the rules it
    did modify together with the error, so it answers with a pair. *)
Record Client (W : Type) : Type := {
  RegisterTaskDefinition :
    types.TaskDefinition -> W -> (error + types.TaskDefinition) * W;
  GetServiceTaskSets :
    types.Service -> W -> (error + list types.TaskSet) * W;
  CreateTaskSet :
    types.Service -> types.TaskDefinition -> option types.LoadBalancer -> Z ->
    W -> (error + types.TaskSet) * W;
  UpdateServicePrimaryTaskSet :
    types.Service -> types.TaskSet -> W -> (error + types.TaskSet) * W;
  DeleteTaskSet :
    types.TaskSet -> W -> option error * W;
  GetListenerArns :
    types.LoadBalancer -> W -> (error + list string) * W;
  ModifyListeners :
    list string -> RoutingTrafficConfig -> W -> (list string * option error) * W;
}.

Arguments RegisterTaskDefinition {W}.
Arguments GetServiceTaskSets {W}.
Arguments CreateTaskSet {W}.
Arguments UpdateServicePrimaryTaskSet {W}.
Arguments DeleteTaskSet {W}.
Arguments GetListenerArns {W}.
Arguments ModifyListeners {W}.

End provider.

Module metadatastore.

(** The metadata store of a deployment: the partition of the current stage
    and the partition shared by all its stages. *)
Record MetadataStore : Type := {
  Stage : gmap string string;
  Shared : gmap string string;
}.

End metadatastore.

Module executor.

(** Modelled from the spec: the reasons a Stop Signal reports (none,
    requested stop, timeout); [StopSignalType] is declared in another
    package. *)
Inductive StopSignalType : Type :=
| StopSignalNone
| StopSignalCancel
| StopSignalTimeout.

(** [executor.StopSignal]: [Signal] is sampled without blocking, its
    answer depends on the state of the outside world at that moment. *)
Record StopSignal (W : Type) : Type := {
  Signal : W -> StopSignalType;
}.
Arguments Signal {W}.


(** Modelled from the spec: [executor.DetermineStageStatus sig original got],
    the stage-status decision rule, whose body lives in another package.
    "If the Stop Signal shows a cancellation/timeout was requested, the
    final status is CANCELLED regardless of the executor's raw result,
    unless the raw result was already a definitive SUCCESS recorded before
    the signal fired."  The executor hands over its raw result before the
    signal is sampled, so a raw SUCCESS is one that was recorded first;
    without a stop request the raw result stands. *)
Definition DetermineStageStatus
    (sig : StopSignalType) (original got : model.StageStatus) : model.StageStatus :=
  match sig with
  | StopSignalNone => got
  | StopSignalCancel | StopSignalTimeout =>
      match got with
      | model.StageStatus_STAGE_SUCCESS => model.StageStatus_STAGE_SUCCESS
      | _ => model.StageStatus_STAGE_CANCELLED
      end
  end.

(** [executor.Input], the fields the rollback reads.  [GetReadOnly] is the
    answer of [RunningDSP.GetReadOnly]. *)
Record Input : Type := {
  Stage : model.PipelineStage;
  Deployment : model.Deployment;
  MetadataStore : metadatastore.MetadataStore;
  GetReadOnly : error + deploysource.DeploySource;
}.

End executor.

(* ===================================================================== *)
(** ** Events and the execution monad *)
(* ===================================================================== *)

(** A step on the platform, with its arguments: a call on the client, or
    the helper [applyServiceDefinition]. *)
Inductive Call : Type :=
| CRegisterTaskDefinition (td : types.TaskDefinition)
| CApplyServiceDefinition (sd : types.Service)
| CGetServiceTaskSets (svc : types.Service)
| CCreateTaskSet (svc : types.Service) (td : types.TaskDefinition)
                 (tg : option types.LoadBalancer) (scale : Z)
| CUpdateServicePrimaryTaskSet (svc : types.Service) (ts : types.TaskSet)
| CDeleteTaskSet (ts : types.TaskSet)
| CGetListenerArns (tg : types.LoadBalancer)
| CModifyListeners (arns : list string) (cfg : provider.RoutingTrafficConfig).

(** What the client answered. *)
Inductive Response : Type :=
| RTaskDefinition (r : error + types.TaskDefinition)
| RService (r : error + types.Service)
| RTaskSets (r : error + list types.TaskSet)
| RTaskSet (r : error + types.TaskSet)
| RDeleted (r : option error)
| RListenerArns (r : error + list string)
| RModifiedRules (rules : list string) (r : option error).

Definition sum_error {A} (r : error + A) : option error :=
  match r with inl e => Some e | inr _ => None end.

Definition response_error (r : Response) : option error :=
  match r with
  | RTaskDefinition r => sum_error r
  | RService r => sum_error r
  | RTaskSets r => sum_error r
  | RTaskSet r => sum_error r
  | RDeleted r => r
  | RListenerArns r => sum_error r
  | RModifiedRules _ r => r
  end.

Inductive LogLevel : Type := LvlInfo | LvlError.

Inductive LogArg : Type :=
| AStr (s : string)
| AErr (e : error).

Inductive Event : Type :=
| EvNewClient (name : string) (r : option error)   (* registry lookup *)
| EvCall (c : Call) (r : Response)                 (* one remote call *)
| EvMetadataGet (key : string)                     (* MetadataStore.Shared().Get *)
| EvLog (lvl : LogLevel) (format : string) (args : list LogArg)
| EvLogModifiedRules (rules : list string).        (* logModifiedRules lp rules *)

Module Exec.
Section Exec.
Context {W : Type}.

(** A piece of a Go function body returning [R]: from a state of the
    world it either executes a [return r] ([inl r]) or falls through with
    a value ([inr a]); it emits events and leaves a new state. *)
Definition t (R A : Type) : Type := W -> (R + A) * list Event * W.

Definition ret {R A} (a : A) : t R A := fun w => (inr a, [], w).

Definition returns {R A} (r : R) : t R A := fun w => (inl r, [], w).

Definition bind {R A B} (m : t R A) (k : A -> t R B) : t R B :=
  fun w =>
    match m w with
    | (inl r, ev, w1) => (inl r, ev, w1)
    | (inr a, ev, w1) =>
        let '(x, ev2, w2) := k a w1 in (x, ev ++ ev2, w2)
    end.

Definition emit {R} (e : Event) : t R unit := fun w => (inr tt, [e], w).

(** One remote call: answer [a], recorded as [mk a]. *)
Definition remote {R A} (op : W -> A * W) (c : Call) (mk : A -> Response) : t R A :=
  fun w => let '(a, w1) := op w in (inr a, [EvCall c (mk a)], w1).

(** The whole function body: the value it returned. *)
Definition run {R} (m : t R R) : W -> R * list Event * W :=
  fun w =>
    match m w with
    | (inl r, ev, w1) => (r, ev, w1)
    | (inr r, ev, w1) => (r, ev, w1)
    end.
End Exec.
End Exec.

Declare Scope exec_scope.
Delimit Scope exec_scope with exec.
Notation "x <- m ;; k" := (Exec.bind m (fun x => k))
  (at level 100, m at next level, right associativity) : exec_scope.
Notation "m ;;; k" := (Exec.bind m (fun _ => k))
  (at level 100, right associativity) : exec_scope.

Definition Infof {W R} (format : string) (args : list LogArg) : Exec.t (W:=W) R unit :=
  Exec.emit (EvLog LvlInfo format args).

Definition Errorf {W R} (format : string) (args : list LogArg) : Exec.t (W:=W) R unit :=
  Exec.emit (EvLog LvlError format args).

(** [logModifiedRules lp rules]: the helper lives in another file of the
    package; the event records that it was called and with which rules. *)
Definition logModifiedRules {W R} (rules : list string) : Exec.t (W:=W) R unit :=
  Exec.emit (EvLogModifiedRules rules).

(* ===================================================================== *)
(** ** The ECS rollback executor *)
(* ===================================================================== *)

Module ecs.
Section Rollback.
Context {W : Type}.

(** Constants declared outside the file of the executor. *)
Variable StageRollback : string.             (* model.StageRollback *)
Variable canaryTargetGroupArnKey : string.   (* key written by the traffic-routing stage *)

(** [provider.DefaultRegistry().Client name cfg logger]. *)
Variable DefaultRegistry_Client :
  string -> config.PlatformProviderECSConfig -> error + provider.Client W.

(** [applyServiceDefinition client serviceDefinition], a helper of the
    package written in another file: through the client it brings the live
    service to the given definition and answers with the live service.  The
    rollback sees it as one step. *)
Variable applyServiceDefinition :
  provider.Client W -> types.Service -> W -> (error + types.Service) * W.

(** Loaders of the package: they read the prepared deploy source and the
    piped configuration, never the platform client. *)
Variable findPlatformProvider :
  executor.Input -> option (string * config.PlatformProviderECSConfig).
Variable loadTaskDefinition :
  executor.Input -> string -> deploysource.DeploySource -> option types.TaskDefinition.
Variable loadServiceDefinition :
  executor.Input -> string -> deploysource.DeploySource -> option types.Service.
Variable loadTargetGroups :
  executor.Input -> config.ECSApplicationSpec -> deploysource.DeploySource ->
  option (option types.LoadBalancer * option types.LoadBalancer).

(** The decision rule applied to the raw result of the rollback. *)
Variable DetermineStageStatus :
  executor.StopSignalType -> model.StageStatus -> model.StageStatus -> model.StageStatus.

Local Open Scope exec_scope.

Definition rollbackELB (in_ : executor.Input) (client : provider.Client W)
    (primaryTargetGroup : types.LoadBalancer)
    (canaryTargetGroup : option types.LoadBalancer) : W -> bool * list Event * W :=
  Exec.run (
    canaryTargetGroupArn <-
      match canaryTargetGroup with
      | None =>
          Exec.emit (EvMetadataGet canaryTargetGroupArnKey) ;;;
          match metadatastore.Shared (executor.MetadataStore in_) !! canaryTargetGroupArnKey with
          | None =>
              Infof "Skip rolling back ELB listeners because it seems the deployment failed before updating them" [] ;;;
              Exec.returns true
          | Some arn =>
              Infof "Successfully got canary target group ARN from metadata store, although it was not included in the last successful commit: %s" [AStr arn] ;;;
              Exec.ret arn
          end
      | Some canary => Exec.ret (types.TargetGroupArn canary)
      end ;;
    let routingTrafficCfg : provider.RoutingTrafficConfig :=
      [ {| provider.TargetGroupArn := types.TargetGroupArn primaryTargetGroup;
           provider.Weight := 100 |};
        {| provider.TargetGroupArn := canaryTargetGroupArn;
           provider.Weight := 0 |} ] in
    r <- Exec.remote (provider.GetListenerArns client primaryTargetGroup)
           (CGetListenerArns primaryTargetGroup) RListenerArns ;;
    match r with
    | inl err =>
        Errorf "Failed to get current active listeners: %v" [AErr err] ;;;
        Exec.returns false
    | inr currListenerArns =>
        m <- Exec.remote (provider.ModifyListeners client currListenerArns routingTrafficCfg)
               (CModifyListeners currListenerArns routingTrafficCfg)
               (fun m => RModifiedRules (fst m) (snd m)) ;;
        let '(modifiedRules, err) := m in
        match err with
        | Some err =>
            Errorf "Failed to routing traffic to PRIMARY/CANARY variants: %v" [AErr err] ;;;
            (if (0 <? length modifiedRules)%nat
             then logModifiedRules modifiedRules
             else Exec.ret tt) ;;;
            Exec.returns false
        | None =>
            logModifiedRules modifiedRules ;;;
            Infof "Successfully rolled back ELB listeners of target groups %s (PRIMARY) and %s (CANARY)"
              [AStr (types.TargetGroupArn primaryTargetGroup); AStr canaryTargetGroupArn] ;;;
            Exec.returns true
        end
    end).

(** The loop over [prevTaskSets] at the end of [rollback]. *)
Fixpoint deleteTaskSets (client : provider.Client W)
    (prevTaskSets : list types.TaskSet) : Exec.t bool unit :=
  match prevTaskSets with
  | [] => Exec.ret tt
  | ts :: rest =>
      Infof "Deleting previous ACTIVE taskSet %s" [AStr (types.TaskSetArn ts)] ;;;
      err <- Exec.remote (provider.DeleteTaskSet client ts) (CDeleteTaskSet ts) RDeleted ;;
      match err with
      | Some err =>
          Errorf "Failed to remove previous ACTIVE taskSet %s: %v"
            [AStr (types.TaskSetArn ts); AErr err] ;;;
          Exec.returns false
      | None => deleteTaskSets client rest
      end
  end.

Definition rollback (in_ : executor.Input) (platformProviderName : string)
    (platformProviderCfg : config.PlatformProviderECSConfig)
    (taskDefinition : types.TaskDefinition) (serviceDefinition : types.Service)
    (primaryTargetGroup canaryTargetGroup : option types.LoadBalancer)
    : W -> bool * list Event * W :=
  Exec.run (
    Infof "Start rollback the ECS service and task family: %s and %s to original stage"
      [AStr (types.ServiceName serviceDefinition); AStr (types.Family taskDefinition)] ;;;
    match DefaultRegistry_Client platformProviderName platformProviderCfg with
    | inl err =>
        Exec.emit (EvNewClient platformProviderName (Some err)) ;;;
        Errorf "Unable to create ECS client for the provider %s: %v"
          [AStr platformProviderName; AErr err] ;;;
        Exec.returns false
    | inr client =>
        Exec.emit (EvNewClient platformProviderName None) ;;;
        (* Re-register TaskDef to get TaskDefArn. *)
        r <- Exec.remote (provider.RegisterTaskDefinition client taskDefinition)
               (CRegisterTaskDefinition taskDefinition) RTaskDefinition ;;
        match r with
        | inl err =>
            Errorf "Failed to register new revision of ECS task definition %s: %v"
              [AStr (types.Family taskDefinition); AErr err] ;;;
            Exec.returns false
        | inr td =>
        (* Rollback ECS service configuration to previous state. *)
        r <- Exec.remote (applyServiceDefinition client serviceDefinition)
               (CApplyServiceDefinition serviceDefinition) RService ;;
        match r with
        | inl err =>
            Errorf "Unable to rollback ECS service %s configuration to previous stage: %v"
              [AStr (types.ServiceName serviceDefinition); AErr err] ;;;
            Exec.returns false
        | inr service =>
        (* Get current PRIMARY/ACTIVE task set. *)
        r <- Exec.remote (provider.GetServiceTaskSets client service)
               (CGetServiceTaskSets service) RTaskSets ;;
        (* Ignore error in case it's not found error. *)
        prevTaskSets <-
          match r with
          | inl err =>
              if negb (errors_Is err ErrNotFound) then
                Errorf "Failed to determine current ECS PRIMARY/ACTIVE taskSet of service %s for rollback: %v"
                  [AStr (types.ServiceName serviceDefinition); AErr err] ;;;
                Exec.returns false
              else Exec.ret []
          | inr prev => Exec.ret prev
          end ;;
        (* The scale of desired tasks will be set to 100. *)
        r <- Exec.remote (provider.CreateTaskSet client service td primaryTargetGroup 100)
               (CCreateTaskSet service td primaryTargetGroup 100) RTaskSet ;;
        match r with
        | inl err =>
            Errorf "Failed to create ECS task set %s: %v"
              [AStr (types.ServiceName serviceDefinition); AErr err] ;;;
            Exec.returns false
        | inr taskSet =>
        (* Make new taskSet as PRIMARY task set. *)
        r <- Exec.remote (provider.UpdateServicePrimaryTaskSet client service taskSet)
               (CUpdateServicePrimaryTaskSet service taskSet) RTaskSet ;;
        match r with
        | inl err =>
            Errorf "Failed to update PRIMARY ECS taskSet for service %s: %v"
              [AStr (types.ServiceName serviceDefinition); AErr err] ;;;
            Exec.returns false
        | inr _ =>
        (* Reset routing in case of rolling back progressive pipeline. *)
        match primaryTargetGroup with
        | Some primary =>
            fun w =>
              let '(ok, ev, w1) := rollbackELB in_ client primary canaryTargetGroup w in
              ((if ok then inr tt else inl false), ev, w1)
        | None => Exec.ret tt
        end ;;;
        (* Delete previous ACTIVE taskSets *)
        Infof "Start deleting previous ACTIVE taskSets" [] ;;;
        deleteTaskSets client prevTaskSets ;;;
        Infof "Rolled back the ECS service %s and task definition %s configuration to original stage"
          [AStr (types.ServiceName serviceDefinition); AStr (types.Family taskDefinition)] ;;;
        Exec.returns true
        end end end end
    end).

Definition ensureRollback (e : executor.Input) : W -> model.StageStatus * list Event * W :=
  Exec.run (
    (* Not rollback in case this is the first deployment. *)
    (if String.eqb (model.RunningCommitHash (executor.Deployment e)) EmptyString
     then
       Errorf "Unable to determine the last deployed commit to rollback. It seems this is the first deployment." [] ;;;
       Exec.returns model.StageStatus_STAGE_FAILURE
     else Exec.ret tt) ;;;
    match executor.GetReadOnly e with
    | inl err =>
        Errorf "Failed to prepare running deploy source data (%v)" [AErr err] ;;;
        Exec.returns model.StageStatus_STAGE_FAILURE
    | inr runningDS =>
    match config.ECSApplicationSpec_ (deploysource.ApplicationConfig runningDS) with
    | None =>
        Errorf "Malformed application configuration: missing ECSApplicationSpec" [] ;;;
        Exec.returns model.StageStatus_STAGE_FAILURE
    | Some appCfg =>
    match findPlatformProvider e with
    | None => Exec.returns model.StageStatus_STAGE_FAILURE
    | Some (platformProviderName, platformProviderCfg) =>
    match loadTaskDefinition e (config.TaskDefinitionFile (config.Input appCfg)) runningDS with
    | None => Exec.returns model.StageStatus_STAGE_FAILURE
    | Some taskDefinition =>
    match loadServiceDefinition e (config.ServiceDefinitionFile (config.Input appCfg)) runningDS with
    | None => Exec.returns model.StageStatus_STAGE_FAILURE
    | Some serviceDefinition =>
    match loadTargetGroups e appCfg runningDS with
    | None => Exec.returns model.StageStatus_STAGE_FAILURE
    | Some (primary, canary) =>
        fun w =>
          let '(ok, ev, w1) :=
            rollback e platformProviderName platformProviderCfg
              taskDefinition serviceDefinition primary canary w in
          (inl (if ok then model.StageStatus_STAGE_SUCCESS
                else model.StageStatus_STAGE_FAILURE), ev, w1)
    end end end end end end).

Definition Execute (e : executor.Input) (sig : executor.StopSignal W)
    : W -> model.StageStatus * list Event * W :=
  fun w =>
    let originalStatus := model.Status (executor.Stage e) in
    if String.eqb (model.Name (executor.Stage e)) StageRollback then
      let '(status, ev, w1) := ensureRollback e w in
      (DetermineStageStatus (executor.Signal sig w1) originalStatus status, ev, w1)
    else
      Exec.run (
        Errorf "Unsupported stage %s for ECS application"
          [AStr (model.Name (executor.Stage e))] ;;;
        Exec.returns model.StageStatus_STAGE_FAILURE) w.

End Rollback.
End ecs.

(* ===================================================================== *)
(** ** Observations on a list of events *)
(* ===================================================================== *)

(** The remote calls of a run with their answers, oldest first. *)
Fixpoint remote_calls (evs : list Event) : list (Call * Response) :=
  match evs with
  | [] => []
  | EvCall c r :: rest => (c, r) :: remote_calls rest
  | _ :: rest => remote_calls rest
  end.

(** The keys read from the shared metadata store. *)
Fixpoint metadata_reads (evs : list Event) : list string :=
  match evs with
  | [] => []
  | EvMetadataGet k :: rest => k :: metadata_reads rest
  | _ :: rest => metadata_reads rest
  end.

(** The registry lookups (client creations) of a run. *)
Fixpoint client_lookups (evs : list Event) : list string :=
  match evs with
  | [] => []
  | EvNewClient n _ :: rest => n :: client_lookups rest
  | _ :: rest => client_lookups rest
  end.

(** The modified rules a run reported through [logModifiedRules]. *)
Fixpoint reported_rules (evs : list Event) : list string :=
  match evs with
  | [] => []
  | EvLogModifiedRules rules :: rest => rules ++ reported_rules rest
  | _ :: rest => reported_rules rest
  end.

(** The rules the answers of [ModifyListeners] said were modified. *)
Fixpoint answered_rules (calls : list (Call * Response)) : list string :=
  match calls with
  | [] => []
  | (_, RModifiedRules rules _) :: rest => rules ++ answered_rules rest
  | _ :: rest => answered_rules rest
  end.

(** A failed step: the answer carries an error, except the not-found answer
    of [GetServiceTaskSets], which the rollback ignores. *)
Definition failed_step (c : Call) (r : Response) : bool :=
  match response_error r with
  | None => false
  | Some err =>
      match c with
      | CGetServiceTaskSets _ => negb (errors_Is err ErrNotFound)
      | _ => true
      end
  end.

Definition is_delete (c : Call) : bool :=
  match c with CDeleteTaskSet _ => true | _ => false end.

Definition sum_weights (cfg : provider.RoutingTrafficConfig) : Z :=
  fold_right (fun e acc => (provider.Weight e + acc)%Z) 0%Z cfg.

(** The 100/0 split between the primary and the canary target group. *)
Definition full_primary (primaryArn canaryArn : string) : provider.RoutingTrafficConfig :=
  [ {| provider.TargetGroupArn := primaryArn; provider.Weight := 100 |};
    {| provider.TargetGroupArn := canaryArn; provider.Weight := 0 |} ].

(** The canary target group the reconciliation works with: the one of the
    prior commit when there is one, else the one recorded in the shared
    metadata under [key], if any. *)
Definition resolved_canary (key : string) (in_ : executor.Input)
    (canary : option types.LoadBalancer) : option string :=
  match canary with
  | Some c => Some (types.TargetGroupArn c)
  | None => metadatastore.Shared (executor.MetadataStore in_) !! key
  end.

(** The task sets a successful answer of [GetServiceTaskSets] holds; none
    for an error. *)
Definition snapshot (r : error + list types.TaskSet) : list types.TaskSet :=
  match r with inl _ => [] | inr prev => prev end.

Definition deleted_ok (ts : types.TaskSet) : Call * Response :=
  (CDeleteTaskSet ts, RDeleted None).

(** The calls of a complete rollback, every one answered without a failure:
    [td'] is the re-registered definition, [svc] the live service, [snap]
    the answer to the snapshot, [ts] the new task set, [elb] the calls of
    the listener reconciliation (empty when it does not run). *)
Definition rollback_plan (taskDefinition : types.TaskDefinition)
    (serviceDefinition : types.Service) (primary : option types.LoadBalancer)
    (td' : types.TaskDefinition) (svc : types.Service)
    (snap : error + list types.TaskSet) (ts ts' : types.TaskSet)
    (elb : list (Call * Response)) : list (Call * Response) :=
  [ (CRegisterTaskDefinition taskDefinition, RTaskDefinition (inr td'));
    (CApplyServiceDefinition serviceDefinition, RService (inr svc));
    (CGetServiceTaskSets svc, RTaskSets snap);
    (CCreateTaskSet svc td' primary 100, RTaskSet (inr ts));
    (CUpdateServicePrimaryTaskSet svc ts, RTaskSet (inr ts')) ]
  ++ elb ++ map deleted_ok (snapshot snap).

(** The calls of a listener reconciliation that went through. *)
Definition elb_plan (p : types.LoadBalancer) (canaryArn : string)
    (arns rules : list string) : list (Call * Response) :=
  [ (CGetListenerArns p, RListenerArns (inr arns));
    (CModifyListeners arns (full_primary (types.TargetGroupArn p) canaryArn),
     RModifiedRules rules None) ].


(** What the listener reconciliation of a complete rollback consists of:
    it runs when there is a primary target group and a canary target group
    could be resolved, and is empty otherwise. *)
Definition reconciliation (primary : option types.LoadBalancer)
    (resolved : option string) (elb : list (Call * Response)) : Prop :=
  match primary, resolved with
  | Some p, Some arn => exists arns rules, elb = elb_plan p arn arns rules
  | _, _ => elb = []
  end.

Global Arguments reconciliation : simpl never.

Definition some_reconciliation (primary : option types.LoadBalancer)
    (resolved : option string) : list (Call * Response) :=
  match primary, resolved with
  | Some p, Some arn => elb_plan p arn [] []
  | _, _ => []
  end.

Definition no_task_set : types.TaskSet :=
  {| types.TaskSetArn := EmptyString; types.TaskSetStatus := EmptyString |}.

(* ===================================================================== *)
(** ** The wait plugin *)
(* ===================================================================== *)

Module sdk.

(** The manual operations an operator may invoke on a stage. *)
Inductive ManualOperation : Type :=
| ManualOperationNone
| ManualOperationSkip
| ManualOperationApprove.

Module StageConfig.
Record t : Type := {
  Index : Z;
  Name : string;
  Config : list Byte.byte;
}.
End StageConfig.

Module PipelineStage.
Record t : Type := {
  Index : Z;
  Name : string;
  Rollback : bool;
  Metadata : gmap string string;
  AvailableOperation : ManualOperation;
}.
End PipelineStage.

Module BuildPipelineSyncStagesRequest.
Record t : Type := {
  Rollback : bool;
  Stages : list StageConfig.t;
}.
End BuildPipelineSyncStagesRequest.

Module BuildPipelineSyncStagesInput.
Record t : Type := {
  Request : BuildPipelineSyncStagesRequest.t;
}.
End BuildPipelineSyncStagesInput.

Module BuildPipelineSyncStagesResponse.
Record t : Type := {
  Stages : list PipelineStage.t;
}.
End BuildPipelineSyncStagesResponse.

End sdk.

Module wait.

Definition stageWait : string := "WAIT"%string.

(** The Go result [(response, err)] as a sum, [inl] for a non-nil error. *)
Definition BuildPipelineSyncStages (input : sdk.BuildPipelineSyncStagesInput.t)
    : error + sdk.BuildPipelineSyncStagesResponse.t :=
  let stages :=
    fold_left
      (fun (stages : list sdk.PipelineStage.t) (rs : sdk.StageConfig.t) =>
         let stage :=
           {| sdk.PipelineStage.Index := sdk.StageConfig.Index rs;
              sdk.PipelineStage.Name := sdk.StageConfig.Name rs;
              sdk.PipelineStage.Rollback := false;
              sdk.PipelineStage.Metadata := ∅;
              sdk.PipelineStage.AvailableOperation := sdk.ManualOperationNone |} in
         stages ++ [stage])
      (sdk.BuildPipelineSyncStagesRequest.Stages
         (sdk.BuildPipelineSyncStagesInput.Request input))
      [] in
  inr {| sdk.BuildPipelineSyncStagesResponse.Stages := stages |}.

Definition FetchDefinedStages : list string := [stageWait].

(** The descriptor the response holds for a requested stage. *)
Definition built_stage (rs : sdk.StageConfig.t) : sdk.PipelineStage.t :=
  {| sdk.PipelineStage.Index := sdk.StageConfig.Index rs;
     sdk.PipelineStage.Name := sdk.StageConfig.Name rs;
     sdk.PipelineStage.Rollback := false;
     sdk.PipelineStage.Metadata := ∅;
     sdk.PipelineStage.AvailableOperation := sdk.ManualOperationNone |}.

End wait.

(* ===================================================================== *)
(** ** A scripted platform, for concrete runs *)
(* ===================================================================== *)

(** The world is the number of remote calls answered so far; the script
    fixes the answers that vary between the scenarios. *)
Module sim.

Record Script : Type := {
  taskSets : error + list types.TaskSet;
  modified : list string * option error;
  deleting : types.TaskSet -> option error;
}.

Definition client (sc : Script) : provider.Client nat := {|
  provider.RegisterTaskDefinition td w :=
    (inr {| types.Family := types.Family td;
            types.TaskDefinitionArn := "taskdef:2" |}, S w);
  provider.GetServiceTaskSets svc w := (taskSets sc, S w);
  provider.CreateTaskSet svc td tg scale w :=
    (inr {| types.TaskSetArn := "taskset:new"; types.TaskSetStatus := "ACTIVE" |}, S w);
  provider.UpdateServicePrimaryTaskSet svc ts w :=
    (inr {| types.TaskSetArn := types.TaskSetArn ts;
            types.TaskSetStatus := "PRIMARY" |}, S w);
  provider.DeleteTaskSet ts w := (deleting sc ts, S w);
  provider.GetListenerArns tg w := (inr ["listener:1"; "listener:2"]%string, S w);
  provider.ModifyListeners arns cfg w := (modified sc, S w);
|}.

(** The live service takes the given definition as it is. *)
Definition applyServiceDefinition (c : provider.Client nat) (sd : types.Service)
    (w : nat) : (error + types.Service) * nat :=
  (inr sd, S w).

Definition StageRollback : string := "ROLLBACK".
Definition canaryTargetGroupArnKey : string := "canary-target-group-arn".

Definition registry (sc : Script) (name : string)
    (cfg : config.PlatformProviderECSConfig) : error + provider.Client nat :=
  inr (client sc).

Definition providerCfg : config.PlatformProviderECSConfig :=
  {| config.Region := "ap-northeast-1"; config.Profile := "default" |}.

Definition taskDefinition : types.TaskDefinition :=
  {| types.Family := "web"; types.TaskDefinitionArn := "taskdef:1" |}.

Definition serviceDefinition : types.Service :=
  {| types.ServiceName := "web-svc"; types.ServiceArn := "service:web" |}.

Definition primaryGroup : types.LoadBalancer :=
  {| types.TargetGroupArn := "tg:primary"; types.ContainerName := "web";
     types.ContainerPort := 80 |}.

Definition canaryGroup : types.LoadBalancer :=
  {| types.TargetGroupArn := "tg:canary"; types.ContainerName := "web";
     types.ContainerPort := 80 |}.

Definition oldSet (arn : string) : types.TaskSet :=
  {| types.TaskSetArn := arn; types.TaskSetStatus := "ACTIVE" |}.

Definition appSpec : config.ECSApplicationSpec :=
  {| config.Input := {| config.ServiceDefinitionFile := "servicedef.yaml";
                        config.TaskDefinitionFile := "taskdef.yaml" |} |}.

Definition runningDS : deploysource.DeploySource :=
  {| deploysource.ApplicationConfig := {| config.ECSApplicationSpec_ := Some appSpec |} |}.

Definition input (stageName hash : string) (shared : gmap string string) : executor.Input :=
  {| executor.Stage := {| model.Name := stageName;
                          model.Status := model.StageStatus_STAGE_RUNNING |};
     executor.Deployment := {| model.RunningCommitHash := hash |};
     executor.MetadataStore :=
       {| metadatastore.Stage := ∅; metadatastore.Shared := shared |};
     executor.GetReadOnly := inr runningDS |}.

Definition findPlatformProvider (e : executor.Input)
    : option (string * config.PlatformProviderECSConfig) :=
  Some ("ecs-default"%string, providerCfg).

Definition loadTaskDefinition (e : executor.Input) (file : string)
    (ds : deploysource.DeploySource) : option types.TaskDefinition :=
  Some taskDefinition.

Definition loadServiceDefinition (e : executor.Input) (file : string)
    (ds : deploysource.DeploySource) : option types.Service :=
  Some serviceDefinition.

Definition loadTargetGroups (groups : option types.LoadBalancer * option types.LoadBalancer)
    (e : executor.Input) (spec : config.ECSApplicationSpec)
    (ds : deploysource.DeploySource)
    : option (option types.LoadBalancer * option types.LoadBalancer) :=
  Some groups.

(** Everything succeeds; one previous task set. *)
Definition healthy : Script :=
  {| taskSets := inr [oldSet "taskset:old"];
     modified := (["rule:1"; "rule:2"]%string, None);
     deleting := fun _ => None |}.

(** [ModifyListeners] fails after changing one rule. *)
Definition partial : Script :=
  {| taskSets := inr [oldSet "taskset:old"];
     modified := (["rule:1"]%string, Some (ErrOther "throttled"));
     deleting := fun _ => None |}.

(** The service has no task set yet. *)
Definition fresh : Script :=
  {| taskSets := inl (ErrWrap "describe services" ErrNotFound);
     modified := (["rule:1"; "rule:2"]%string, None);
     deleting := fun _ => None |}.

(** Two previous task sets; deleting the second one fails. *)
Definition stuck : Script :=
  {| taskSets := inr [oldSet "taskset:a"; oldSet "taskset:b"];
     modified := (["rule:1"; "rule:2"]%string, None);
     deleting := fun ts =>
       if String.eqb (types.TaskSetArn ts) "taskset:b"
       then Some (ErrOther "access denied") else None |}.


(** The commit the scenarios roll back to. *)
Definition deployed : string := "f3a1c9e".

(** A run of [rollback] from the initial world. *)
Definition rollback_run (sc : Script) (primary canary : option types.LoadBalancer)
    (shared : gmap string string) : bool * list Event * nat :=
  ecs.rollback canaryTargetGroupArnKey (registry sc) applyServiceDefinition
    (input StageRollback deployed shared) "ecs-default" providerCfg
    taskDefinition serviceDefinition primary canary 0.


(** A run of the rollback stage on a deployment whose running commit is
    [hash]. *)
Definition stage_run (sc : Script) (hash : string)
    (primary canary : option types.LoadBalancer)
    (shared : gmap string string) : model.StageStatus * list Event * nat :=
  ecs.ensureRollback canaryTargetGroupArnKey (registry sc) applyServiceDefinition
    findPlatformProvider loadTaskDefinition loadServiceDefinition
    (loadTargetGroups (primary, canary))
    (input StageRollback hash shared) 0.

(** A decision rule that lets the raw result stand. *)
Definition raw_result (sig : executor.StopSignalType)
    (original got : model.StageStatus) : model.StageStatus := got.

(** A stop signal that reports a cancellation whenever it is sampled. *)
Definition cancelled : executor.StopSignal nat :=
  {| executor.Signal := fun _ => executor.StopSignalCancel |}.

(** The executor on the stage [stageName], under the decision rule
    [determine]. *)
Definition execute_run
    (determine : executor.StopSignalType -> model.StageStatus -> model.StageStatus ->
                 model.StageStatus)
    (sc : Script) (stageName hash : string)
    (sig : executor.StopSignal nat) : model.StageStatus * list Event * nat :=
  ecs.Execute StageRollback canaryTargetGroupArnKey (registry sc) applyServiceDefinition
    findPlatformProvider loadTaskDefinition loadServiceDefinition
    (loadTargetGroups (Some primaryGroup, Some canaryGroup))
    determine (input stageName hash ∅) sig 0.

(** The scenarios. *)
Definition both_groups : option types.LoadBalancer * option types.LoadBalancer :=
  (Some primaryGroup, Some canaryGroup).

Definition healthy_rollback : bool * list Event * nat :=
  rollback_run healthy (Some primaryGroup) (Some canaryGroup) ∅.

Definition partial_stage : model.StageStatus * list Event * nat :=
  stage_run partial deployed (Some primaryGroup) (Some canaryGroup) ∅.

Definition stuck_stage : model.StageStatus * list Event * nat :=
  stage_run stuck deployed None None ∅.


Definition recorded : gmap string string :=
  {[ canaryTargetGroupArnKey := "tg:recorded"%string ]}.


End sim.

(* ===================================================================== *)
(** ** The piped configuration *)
(* ===================================================================== *)

(** The file of the [config] package that declares [PipedSpec]. *)
Module piped.

(** [model.CloudProviderType], a string type with four named constants;
    [CloudProviderOther] is any other value. *)
Inductive CloudProviderType : Type :=
| CloudProviderKubernetes
| CloudProviderTerraform
| CloudProviderCloudRun
| CloudProviderLambda
| CloudProviderOther (name : string).

(** [PipedGit], with the fields [ShouldConfigureSSHConfig] reads. *)
Module PipedGit.
Record t : Type := {
  Username : string;
  Email : string;
  SSHConfigFilePath : string;
  Host : string;
  HostName : string;
  SSHKeyFile : string;
  AccessTokenFile : string;
}.
End PipedGit.

Module PipedRepository.
Record t : Type := {
  RepoID : string;
  Remote : string;
  Branch : string;
}.

(** The zero value [PipedRepository{}]. *)
Definition zero : t :=
  {| RepoID := EmptyString; Remote := EmptyString; Branch := EmptyString |}.
End PipedRepository.

Module CloudProviderKubernetesConfig.
Record t : Type := {
  MasterURL : string;
  KubeConfigPath : string;
}.

Definition zero : t := {| MasterURL := EmptyString; KubeConfigPath := EmptyString |}.
End CloudProviderKubernetesConfig.

Module CloudProviderTerraformGCP.
Record t : Type := {
  Project : string;
  Region : string;
  CredentialsFile : string;
}.
End CloudProviderTerraformGCP.

Module CloudProviderTerraformAWS.
Record t : Type := {
  Region : string;
}.
End CloudProviderTerraformAWS.

Module CloudProviderTerraformConfig.
Record t : Type := {
  GCP : option CloudProviderTerraformGCP.t;
  AWS : option CloudProviderTerraformAWS.t;
}.

Definition zero : t := {| GCP := None; AWS := None |}.
End CloudProviderTerraformConfig.

Module CloudProviderCloudRunConfig.
Record t : Type := {
  Project : string;
  Region : string;
  Platform : string;
  CredentialsFile : string;
}.

Definition zero : t :=
  {| Project := EmptyString; Region := EmptyString; Platform := EmptyString;
     CredentialsFile := EmptyString |}.
End CloudProviderCloudRunConfig.

Module CloudProviderLambdaConfig.
Record t : Type := {
  Region : string;
}.

Definition zero : t := {| Region := EmptyString |}.
End CloudProviderLambdaConfig.

Module PipedCloudProvider.
Record t : Type := {
  Name : string;
  Type_ : CloudProviderType;
  KubernetesConfig : option CloudProviderKubernetesConfig.t;
  TerraformConfig : option CloudProviderTerraformConfig.t;
  CloudRunConfig : option CloudProviderCloudRunConfig.t;
  LambdaConfig : option CloudProviderLambdaConfig.t;
}.
End PipedCloudProvider.

Module genericPipedCloudProvider.
Record t : Type := {
  Name : string;
  Type_ : CloudProviderType;
  Config : list Byte.byte;      (* json.RawMessage *)
}.
End genericPipedCloudProvider.

Module AnalysisProviderPrometheus.
Record t : Type := {
  Address : string;
  UsernameFile : string;
  PasswordFile : string;
}.
End AnalysisProviderPrometheus.

Module AnalysisProviderDatadog.
Record t : Type := {
  Address : string;
  APIKeyFile : string;
  ApplicationKeyFile : string;
}.
End AnalysisProviderDatadog.

Module AnalysisProviderStackdriver.
Record t : Type := {
  ServiceAccountFile : string;
}.
End AnalysisProviderStackdriver.

Module AnalysisProvider.
Record t : Type := {
  Name : string;
  Prometheus : option AnalysisProviderPrometheus.t;
  Datadog : option AnalysisProviderDatadog.t;
  Stackdriver : option AnalysisProviderStackdriver.t;
}.

(** The zero value [AnalysisProvider{}]. *)
Definition zero : t :=
  {| Name := EmptyString; Prometheus := None; Datadog := None; Stackdriver := None |}.
End AnalysisProvider.

Module PipedSpec.
Record t : Type := {
  SyncInterval : Z;                               (* Duration *)
  Git : PipedGit.t;
  Repositories : list PipedRepository.t;
  CloudProviders : list PipedCloudProvider.t;
  AnalysisProviders : list AnalysisProvider.t;
}.
End PipedSpec.

Definition DefaultKubernetesCloudProvider : PipedCloudProvider.t :=
  {| PipedCloudProvider.Name := "kubernetes-default";
     PipedCloudProvider.Type_ := CloudProviderKubernetes;
     PipedCloudProvider.KubernetesConfig := Some CloudProviderKubernetesConfig.zero;
     PipedCloudProvider.TerraformConfig := None;
     PipedCloudProvider.CloudRunConfig := None;
     PipedCloudProvider.LambdaConfig := None |}.

(** [(s *PipedSpec) EnableDefaultKubernetesCloudProvider]: the spec after
    the call. *)
Definition EnableDefaultKubernetesCloudProvider (s : PipedSpec.t) : PipedSpec.t :=
  if existsb
       (fun cp => String.eqb (PipedCloudProvider.Name cp)
                    (PipedCloudProvider.Name DefaultKubernetesCloudProvider))
       (PipedSpec.CloudProviders s)
  then s
  else
    {| PipedSpec.SyncInterval := PipedSpec.SyncInterval s;
       PipedSpec.Git := PipedSpec.Git s;
       PipedSpec.Repositories := PipedSpec.Repositories s;
       PipedSpec.CloudProviders :=
         PipedSpec.CloudProviders s ++ [DefaultKubernetesCloudProvider];
       PipedSpec.AnalysisProviders := PipedSpec.AnalysisProviders s |}.

(** [(s *PipedSpec) GetRepositoryMap]: the loop writes [m[repo.RepoID] = repo]
    for every repository in turn. *)
Definition GetRepositoryMap (s : PipedSpec.t) : gmap string PipedRepository.t :=
  fold_left (fun m repo => <[PipedRepository.RepoID repo := repo]> m)
    (PipedSpec.Repositories s) ∅.

(** The loop of [GetRepository]: the first repository with the given ID. *)
Fixpoint findRepository (repos : list PipedRepository.t) (id : string)
    : PipedRepository.t * bool :=
  match repos with
  | [] => (PipedRepository.zero, false)
  | repo :: rest =>
      if String.eqb (PipedRepository.RepoID repo) id then (repo, true)
      else findRepository rest id
  end.

Definition GetRepository (s : PipedSpec.t) (id : string) : PipedRepository.t * bool :=
  findRepository (PipedSpec.Repositories s) id.

(** The loop of [GetProvider]: the first analysis provider with the given
    name. *)
Fixpoint findProvider (providers : list AnalysisProvider.t) (name : string)
    : AnalysisProvider.t * bool :=
  match providers with
  | [] => (AnalysisProvider.zero, false)
  | p :: rest =>
      if String.eqb (AnalysisProvider.Name p) name then (p, true)
      else findProvider rest name
  end.

Definition GetProvider (s : PipedSpec.t) (name : string) : AnalysisProvider.t * bool :=
  findProvider (PipedSpec.AnalysisProviders s) name.

Definition ShouldConfigureSSHConfig (g : PipedGit.t) : bool :=
  if negb (String.eqb (PipedGit.SSHConfigFilePath g) EmptyString) then true
  else if negb (String.eqb (PipedGit.Host g) EmptyString) then true
  else if negb (String.eqb (PipedGit.HostName g) EmptyString) then true
  else if negb (String.eqb (PipedGit.SSHKeyFile g) EmptyString) then true
  else false.

Section UnmarshalJSON.

(** [json.Unmarshal data &gp] into a zero [genericPipedCloudProvider]. *)
Variable unmarshalGeneric : list Byte.byte -> error + genericPipedCloudProvider.t.

(** [json.Unmarshal gp.Config cfg] into the pointed configuration: what the
    configuration holds afterwards, and the error. *)
Variable unmarshalKubernetes :
  list Byte.byte -> CloudProviderKubernetesConfig.t ->
  CloudProviderKubernetesConfig.t * option error.
Variable unmarshalTerraform :
  list Byte.byte -> CloudProviderTerraformConfig.t ->
  CloudProviderTerraformConfig.t * option error.
Variable unmarshalCloudRun :
  list Byte.byte -> CloudProviderCloudRunConfig.t ->
  CloudProviderCloudRunConfig.t * option error.
Variable unmarshalLambda :
  list Byte.byte -> CloudProviderLambdaConfig.t ->
  CloudProviderLambdaConfig.t * option error.

(** The decoding of the configuration of one provider type: a fresh zero
    configuration, filled from [config] when that is not empty. *)
Definition decodeConfig {C : Type} (zero : C)
    (unmarshal : list Byte.byte -> C -> C * option error)
    (config : list Byte.byte) : C * option error :=
  if (0 <? length config)%nat then unmarshal config zero else (zero, None).

(** [(p *PipedCloudProvider) UnmarshalJSON data]: the provider after the
    call, and the error returned. *)
Definition UnmarshalJSON (p : PipedCloudProvider.t) (data : list Byte.byte)
    : PipedCloudProvider.t * option error :=
  match unmarshalGeneric data with
  | inl err => (p, Some err)
  | inr gp =>
      let name := genericPipedCloudProvider.Name gp in
      let type := genericPipedCloudProvider.Type_ gp in
      let config := genericPipedCloudProvider.Config gp in
      match type with
      | CloudProviderKubernetes =>
          let '(c, err) :=
            decodeConfig CloudProviderKubernetesConfig.zero unmarshalKubernetes config in
          ({| PipedCloudProvider.Name := name;
              PipedCloudProvider.Type_ := type;
              PipedCloudProvider.KubernetesConfig := Some c;
              PipedCloudProvider.TerraformConfig := PipedCloudProvider.TerraformConfig p;
              PipedCloudProvider.CloudRunConfig := PipedCloudProvider.CloudRunConfig p;
              PipedCloudProvider.LambdaConfig := PipedCloudProvider.LambdaConfig p |}, err)
      | CloudProviderTerraform =>
          let '(c, err) :=
            decodeConfig CloudProviderTerraformConfig.zero unmarshalTerraform config in
          ({| PipedCloudProvider.Name := name;
              PipedCloudProvider.Type_ := type;
              PipedCloudProvider.KubernetesConfig := PipedCloudProvider.KubernetesConfig p;
              PipedCloudProvider.TerraformConfig := Some c;
              PipedCloudProvider.CloudRunConfig := PipedCloudProvider.CloudRunConfig p;
              PipedCloudProvider.LambdaConfig := PipedCloudProvider.LambdaConfig p |}, err)
      | CloudProviderCloudRun =>
          let '(c, err) :=
            decodeConfig CloudProviderCloudRunConfig.zero unmarshalCloudRun config in
          ({| PipedCloudProvider.Name := name;
              PipedCloudProvider.Type_ := type;
              PipedCloudProvider.KubernetesConfig := PipedCloudProvider.KubernetesConfig p;
              PipedCloudProvider.TerraformConfig := PipedCloudProvider.TerraformConfig p;
              PipedCloudProvider.CloudRunConfig := Some c;
              PipedCloudProvider.LambdaConfig := PipedCloudProvider.LambdaConfig p |}, err)
      | CloudProviderLambda =>
          let '(c, err) :=
            decodeConfig CloudProviderLambdaConfig.zero unmarshalLambda config in
          ({| PipedCloudProvider.Name := name;
              PipedCloudProvider.Type_ := type;
              PipedCloudProvider.KubernetesConfig := PipedCloudProvider.KubernetesConfig p;
              PipedCloudProvider.TerraformConfig := PipedCloudProvider.TerraformConfig p;
              PipedCloudProvider.CloudRunConfig := PipedCloudProvider.CloudRunConfig p;
              PipedCloudProvider.LambdaConfig := Some c |}, err)
      | CloudProviderOther _ =>
          ({| PipedCloudProvider.Name := name;
              PipedCloudProvider.Type_ := type;
              PipedCloudProvider.KubernetesConfig := PipedCloudProvider.KubernetesConfig p;
              PipedCloudProvider.TerraformConfig := PipedCloudProvider.TerraformConfig p;
              PipedCloudProvider.CloudRunConfig := PipedCloudProvider.CloudRunConfig p;
              PipedCloudProvider.LambdaConfig := PipedCloudProvider.LambdaConfig p |},
           Some (ErrOther ("unsupported cloud provider type: " +:+ name)))
      end
  end.

End UnmarshalJSON.

(** The zero value [PipedCloudProvider{}]; its type is the empty string. *)
Definition zeroCloudProvider : PipedCloudProvider.t :=
  {| PipedCloudProvider.Name := EmptyString;
     PipedCloudProvider.Type_ := CloudProviderOther EmptyString;
     PipedCloudProvider.KubernetesConfig := None;
     PipedCloudProvider.TerraformConfig := None;
     PipedCloudProvider.CloudRunConfig := None;
     PipedCloudProvider.LambdaConfig := None |}.

(** The configurations a provider holds, as flags: Kubernetes, Terraform,
    Cloud Run, Lambda. *)
Definition configured (p : PipedCloudProvider.t) : bool * bool * bool * bool :=
  (bool_decide (is_Some (PipedCloudProvider.KubernetesConfig p)),
   bool_decide (is_Some (PipedCloudProvider.TerraformConfig p)),
   bool_decide (is_Some (PipedCloudProvider.CloudRunConfig p)),
   bool_decide (is_Some (PipedCloudProvider.LambdaConfig p))).

(** The flags of the one configuration that goes with a provider type. *)
Definition expected_configuration (t : CloudProviderType) : bool * bool * bool * bool :=
  match t with
  | CloudProviderKubernetes => (true, false, false, false)
  | CloudProviderTerraform => (false, true, false, false)
  | CloudProviderCloudRun => (false, false, true, false)
  | CloudProviderLambda => (false, false, false, true)
  | CloudProviderOther _ => (false, false, false, false)
  end.

End piped.

(* ===================================================================== *)
(** ** Further observations on a list of events *)
(* ===================================================================== *)

(** The formats of the error lines a run logged. *)
Fixpoint error_logs (evs : list Event) : list string :=
  match evs with
  | [] => []
  | EvLog LvlError format _ :: rest => format :: error_logs rest
  | _ :: rest => error_logs rest
  end.

(** The calls of the listener reconciliation. *)
Definition is_listener_call (c : Call) : bool :=
  match c with
  | CGetListenerArns _ | CModifyListeners _ _ => true
  | _ => false
  end.

(* ===================================================================== *)
(** ** The web pages *)
(* ===================================================================== *)

(** The TypeScript sources.  A [Record<string, T[]>] that starts as the
    object literal [{}] is a finite map of its own properties; a name it
    does not own is looked up in [Object.prototype].  [undefined] is [None].
    A thrown [TypeError] is the result [None] of a function that returns an
    option. *)
Module web.

Import Stdlib.Strings.Ascii.

Module Deployment.
(** [Deployment.AsObject], with the fields the page reads. *)
Record AsObject : Type := {
  id : string;
  createdAt : Z;
}.
End Deployment.

Module ResourceState.
(** [ResourceState.AsObject], with the fields the view reads. *)
Record AsObject : Type := {
  id : string;
  name : string;
  deployTarget : string;
}.
End ResourceState.

(** [String.prototype.split] with a separator of one character: the pieces
    between the occurrences of the separator, so one piece more than there
    are occurrences. *)
Fixpoint split (sep : Ascii.ascii) (s : string) : list string :=
  match s with
  | EmptyString => [EmptyString]
  | String c rest =>
      if Ascii.eqb c sep then EmptyString :: split sep rest
      else match split sep rest with
           | piece :: pieces => String c piece :: pieces
           | [] => [String c EmptyString]
           end
  end.

Section Objects.

(** The names a fresh [{}] answers from [Object.prototype] ([constructor],
    [toString], [__proto__], ...): each of them with a value that is truthy
    and has no [push]. *)
Variable inherited : string -> bool.

(** The two statements both groupings run on their accumulator,
    [if (!o[k]) { o[k] = []; }  o[k].push(x);].  An own property holds an
    array, which is truthy; an inherited one is truthy too, so nothing is
    assigned and [push] is not a function. *)
Definition push {A : Type} (o : gmap string (list A)) (k : string) (x : A) :
    option (gmap string (list A)) :=
  match o !! k with
  | Some xs => Some (<[k := xs ++ [x]]> o)
  | None => if inherited k then None else Some (<[k := [x]]> o)
  end.

Section DeploymentIndexPage.

(** The deployments slice of the store and its two selectors. *)
Variable DeploymentsState : Type.
Variable selectDeploymentIds : DeploymentsState -> list string.
Variable selectDeploymentById : DeploymentsState -> string -> option Deployment.AsObject.
(** [dayjs(ms).format("YYYY/MM/DD")]. *)
Variable format : Z -> string.

Definition filterUndefined {TValue : Type} (value : option TValue) : bool :=
  match value with Some _ => true | None => false end.

(** The selected list: the entity of each id, the undefined ones filtered
    out ([omap id] is the narrowing of the type guard). *)
Definition deployments (state : DeploymentsState) : list Deployment.AsObject :=
  omap id
    (List.filter filterUndefined
       (map (selectDeploymentById state) (selectDeploymentIds state))).

Definition dateStr (deployment : Deployment.AsObject) : string :=
  format (Deployment.createdAt deployment * 1000).

Definition useGroupedDeployments (state : DeploymentsState) :
    option (gmap string (list Deployment.AsObject)) :=
  foldl (fun result deployment =>
           result ← result;
           push result (dateStr deployment) deployment)
        (Some ∅) (deployments state).

End DeploymentIndexPage.

Section LiveStateView.

(** The first memo of [LiveStateView]. *)
Definition resourcesByDeployTarget (allResources : list ResourceState.AsObject) :
    option (gmap string (list ResourceState.AsObject)) :=
  foldl (fun all resource =>
           all ← all;
           let deployTarget := ResourceState.deployTarget resource in
           if String.eqb deployTarget EmptyString then Some all
           else push all deployTarget resource)
        (Some ∅) allResources.

End LiveStateView.

End Objects.

(** The slice [deploymentFrequency]. *)
Module deploymentFrequency.

Inductive LoadingStatus : Type := idle | loading | succeeded | failed.

Module InsightDataPoint.
Record AsObject : Type := {
  timestamp : Z;
  value : Z;
}.
End InsightDataPoint.

Record DeploymentFrequencyState : Type := {
  status : LoadingStatus;
  data : list InsightDataPoint.AsObject;
  status24h : LoadingStatus;
  data24h : list InsightDataPoint.AsObject;
}.

Definition initialState : DeploymentFrequencyState :=
  {| status := idle; data := []; status24h := idle; data24h := [] |}.

(** The label filter of [fetchDeploymentFrequency]: [state.insight.labels]
    may be undefined. *)
Definition labelsMap (labels : option (list string)) : list (string * string) :=
  match labels with
  | None => []
  | Some labels =>
      foldl (fun acc label =>
               match split ":"%char label with
               | [k; v] => acc ++ [(k, v)]
               | _ => acc
               end) [] labels
  end.

(** The actions of the two thunks; [other] is any action of another type. *)
Inductive Action : Type :=
| fetchDeploymentFrequency_pending
| fetchDeploymentFrequency_rejected
| fetchDeploymentFrequency_fulfilled (payload : list InsightDataPoint.AsObject)
| fetchDeployment24h_pending
| fetchDeployment24h_rejected
| fetchDeployment24h_fulfilled (payload : list InsightDataPoint.AsObject)
| other (type : string).

(** The reducer of [deploymentFrequencySlice]: one case per [addCase], and
    the state as it is for an action no case matches. *)
Definition reducer (state : DeploymentFrequencyState) (action : Action) :
    DeploymentFrequencyState :=
  match action with
  | fetchDeploymentFrequency_pending =>
      {| status := loading; data := data state;
         status24h := status24h state; data24h := data24h state |}
  | fetchDeploymentFrequency_rejected =>
      {| status := failed; data := data state;
         status24h := status24h state; data24h := data24h state |}
  | fetchDeploymentFrequency_fulfilled payload =>
      {| status := succeeded; data := payload;
         status24h := status24h state; data24h := data24h state |}
  | fetchDeployment24h_pending =>
      {| status := status state; data := data state;
         status24h := loading; data24h := data24h state |}
  | fetchDeployment24h_rejected =>
      {| status := status state; data := data state;
         status24h := failed; data24h := data24h state |}
  | fetchDeployment24h_fulfilled payload =>
      {| status := status state; data := data state;
         status24h := succeeded; data24h := payload |}
  | other _ => state
  end.

End deploymentFrequency.

End web.

(** *** Observations of the web pages *)

(** The members of a list that a grouping files under a key, in the order of
    the list; [key] answers [None] for a member the grouping skips. *)
Definition filed {A : Type} (key : A -> option string) (l : list A) (k : string) :
    list A :=
  List.filter (fun x => bool_decide (key x = Some k)) l.

(** A property of an object: present exactly when there is something in it. *)
Definition property {A : Type} (xs : list A) : option (list A) :=
  match xs with [] => None | _ => Some xs end.

Definition by_date (format : Z -> string) (d : web.Deployment.AsObject) : option string :=
  Some (web.dateStr format d).

Definition by_target (r : web.ResourceState.AsObject) : option string :=
  if String.eqb (web.ResourceState.deployTarget r) EmptyString then None
  else Some (web.ResourceState.deployTarget r).

(** Whether a string has the character. *)
Fixpoint has_char (c : Ascii.ascii) (s : string) : bool :=
  match s with
  | EmptyString => false
  | String c' rest => Ascii.eqb c' c || has_char c rest
  end.

(** The actions of the first thunk, and those of the second. *)
Definition of_fetch (a : web.deploymentFrequency.Action) : bool :=
  match a with
  | web.deploymentFrequency.fetchDeploymentFrequency_pending
  | web.deploymentFrequency.fetchDeploymentFrequency_rejected
  | web.deploymentFrequency.fetchDeploymentFrequency_fulfilled _ => true
  | _ => false
  end.

Definition of_fetch24h (a : web.deploymentFrequency.Action) : bool :=
  match a with
  | web.deploymentFrequency.fetchDeployment24h_pending
  | web.deploymentFrequency.fetchDeployment24h_rejected
  | web.deploymentFrequency.fetchDeployment24h_fulfilled _ => true
  | _ => false
  end.

Section Labels.
Import Stdlib.Strings.Ascii.

(** Whether a string has a colon. *)
Definition has_colon (s : string) : bool := has_char ":" s.

End Labels.

(** The payloads of the fulfilled actions of each thunk, in order. *)
Definition payloads (acts : list web.deploymentFrequency.Action) :
    list (list web.deploymentFrequency.InsightDataPoint.AsObject) :=
  omap (fun a => match a with
                 | web.deploymentFrequency.fetchDeploymentFrequency_fulfilled p => Some p
                 | _ => None
                 end) acts.

Definition payloads24h (acts : list web.deploymentFrequency.Action) :
    list (list web.deploymentFrequency.InsightDataPoint.AsObject) :=
  omap (fun a => match a with
                 | web.deploymentFrequency.fetchDeployment24h_fulfilled p => Some p
                 | _ => None
                 end) acts.

(** The status an action of the first thunk leaves, and of the second. *)
Definition status_of (a : web.deploymentFrequency.Action) :
    option web.deploymentFrequency.LoadingStatus :=
  match a with
  | web.deploymentFrequency.fetchDeploymentFrequency_pending =>
      Some web.deploymentFrequency.loading
  | web.deploymentFrequency.fetchDeploymentFrequency_rejected =>
      Some web.deploymentFrequency.failed
  | web.deploymentFrequency.fetchDeploymentFrequency_fulfilled _ =>
      Some web.deploymentFrequency.succeeded
  | _ => None
  end.

(* ===================================================================== *)
(** ** Further scenarios *)
(* ===================================================================== *)

Module sample.

(** A registry that cannot create a client. *)
Definition unreachable (name : string) (cfg : config.PlatformProviderECSConfig) :
    error + provider.Client nat :=
  inl (ErrOther "no credentials").

Definition unreachable_rollback : bool * list Event * nat :=
  ecs.rollback sim.canaryTargetGroupArnKey unreachable sim.applyServiceDefinition
    (sim.input sim.StageRollback sim.deployed ∅) "ecs-default" sim.providerCfg
    sim.taskDefinition sim.serviceDefinition
    (Some sim.primaryGroup) (Some sim.canaryGroup) 0.

(** A rollback whose [ModifyListeners] fails. *)
Definition partial_rollback : bool * list Event * nat :=
  sim.rollback_run sim.partial (Some sim.primaryGroup) (Some sim.canaryGroup) ∅.

(** A rollback that goes through the listener reconciliation and one
    deletion, and whose second deletion fails. *)
Definition stuck_rollback : bool * list Event * nat :=
  sim.rollback_run sim.stuck (Some sim.primaryGroup) (Some sim.canaryGroup) ∅.

(** A rollback of a service without target groups. *)
Definition service_rollback : bool * list Event * nat :=
  sim.rollback_run sim.healthy None None ∅.

(** A rollback that takes the canary target group from the metadata. *)
Definition recorded_rollback : bool * list Event * nat :=
  sim.rollback_run sim.healthy (Some sim.primaryGroup) None sim.recorded.

(** The rollback stage on the healthy platform. *)
Definition healthy_stage : model.StageStatus * list Event * nat :=
  sim.stage_run sim.healthy sim.deployed (Some sim.primaryGroup) (Some sim.canaryGroup) ∅.

(** A piped with two repositories. *)
Definition repository (id : string) : piped.PipedRepository.t :=
  {| piped.PipedRepository.RepoID := id;
     piped.PipedRepository.Remote := "git@github.com:org/" +:+ id +:+ ".git";
     piped.PipedRepository.Branch := "main" |}.

Definition spec : piped.PipedSpec.t :=
  {| piped.PipedSpec.SyncInterval := 60;
     piped.PipedSpec.Git :=
       {| piped.PipedGit.Username := "piped";
          piped.PipedGit.Email := "piped@example.com";
          piped.PipedGit.SSHConfigFilePath := EmptyString;
          piped.PipedGit.Host := EmptyString;
          piped.PipedGit.HostName := EmptyString;
          piped.PipedGit.SSHKeyFile := EmptyString;
          piped.PipedGit.AccessTokenFile := EmptyString |};
     piped.PipedSpec.Repositories := [repository "app"; repository "infra"];
     piped.PipedSpec.CloudProviders := [];
     piped.PipedSpec.AnalysisProviders := [] |}.

(** A decoder that reads every document that is not empty as a Lambda
    provider without a configuration document. *)
Definition unmarshalGeneric (data : list Byte.byte) :
    error + piped.genericPipedCloudProvider.t :=
  match data with
  | [] => inl (ErrOther "unexpected end of JSON input")
  | _ => inr {| piped.genericPipedCloudProvider.Name := "lambda-dev";
                piped.genericPipedCloudProvider.Type_ := piped.CloudProviderLambda;
                piped.genericPipedCloudProvider.Config := [] |}
  end.

(** A decoder of configurations that finds no field to set. *)
Definition unmarshalConfig {C : Type} (config : list Byte.byte) (c : C) : C * option error :=
  (c, None).

Definition document : list Byte.byte := [Byte.x7b; Byte.x7d].

(** Some names of [Object.prototype]. *)
Definition inherited (k : string) : bool :=
  bool_decide (k ∈ ["constructor"; "hasOwnProperty"; "isPrototypeOf"; "toString";
                    "toLocaleString"; "valueOf"; "__proto__"]%string).

(** A store that is the list of its deployments. *)
Definition selectDeploymentIds (state : list web.Deployment.AsObject) : list string :=
  web.Deployment.id <$> state.

Definition selectDeploymentById (state : list web.Deployment.AsObject) (i : string) :
    option web.Deployment.AsObject :=
  List.find (fun d => String.eqb (web.Deployment.id d) i) state.

(** The dates of the first two days of 1970. *)
Definition format (ms : Z) : string :=
  if (ms <? 86400000)%Z then "1970/01/01"%string else "1970/01/02"%string.

Definition store : list web.Deployment.AsObject :=
  [ {| web.Deployment.id := "d3"; web.Deployment.createdAt := 90000 |};
    {| web.Deployment.id := "d2"; web.Deployment.createdAt := 7200 |};
    {| web.Deployment.id := "d1"; web.Deployment.createdAt := 3600 |} ].

Definition resources : list web.ResourceState.AsObject :=
  [ {| web.ResourceState.id := "r1"; web.ResourceState.name := "web";
       web.ResourceState.deployTarget := "cluster-a" |};
    {| web.ResourceState.id := "r2"; web.ResourceState.name := "orphan";
       web.ResourceState.deployTarget := EmptyString |};
    {| web.ResourceState.id := "r3"; web.ResourceState.name := "db";
       web.ResourceState.deployTarget := "cluster-b" |};
    {| web.ResourceState.id := "r4"; web.ResourceState.name := "cache";
       web.ResourceState.deployTarget := "cluster-a" |} ].

End sample.

(* ===================================================================== *)
(** ** Properties of the observations *)
(* ===================================================================== *)

Lemma remote_calls_app (a b : list Event) :
  remote_calls (a ++ b) = remote_calls a ++ remote_calls b.
Proof.
  induction a as [|e a IH]; [done|].
  destruct e; simpl; by rewrite ?IH.
Qed.

Lemma metadata_reads_app (a b : list Event) :
  metadata_reads (a ++ b) = metadata_reads a ++ metadata_reads b.
Proof.
  induction a as [|e a IH]; [done|].
  destruct e; simpl; by rewrite ?IH.
Qed.

Lemma client_lookups_app (a b : list Event) :
  client_lookups (a ++ b) = client_lookups a ++ client_lookups b.
Proof.
  induction a as [|e a IH]; [done|].
  destruct e; simpl; by rewrite ?IH.
Qed.

Lemma reported_rules_app (a b : list Event) :
  reported_rules (a ++ b) = reported_rules a ++ reported_rules b.
Proof.
  induction a as [|e a IH]; [done|].
  destruct e; simpl; rewrite ?IH; [done..| |]; by rewrite ?app_assoc.
Qed.

Lemma answered_rules_app (a b : list (Call * Response)) :
  answered_rules (a ++ b) = answered_rules a ++ answered_rules b.
Proof.
  induction a as [|[c r] a IH]; [done|].
  destruct r; simpl; rewrite ?IH; try done; by rewrite app_assoc.
Qed.

Lemma answered_rules_deleted (l : list types.TaskSet) :
  answered_rules (map deleted_ok l) = [].
Proof. by induction l. Qed.

Lemma In_remote_calls (evs : list Event) (c : Call) (r : Response) :
  In (EvCall c r) evs <-> In (c, r) (remote_calls evs).
Proof.
  induction evs as [|e evs IH]; [done|].
  destruct e; simpl; rewrite IH; intuition (try congruence).
Qed.

Lemma and_rev3 (A B C : Prop) : C -> B -> A -> A /\ B /\ C.
Proof. tauto. Qed.

Lemma no_rules (rules : list string) :
  (0 <? length rules)%nat = false -> [] = rules.
Proof. by destruct rules. Qed.

(** When every call before the last one went well, a failed step can only
    be the last call. *)
Lemma failed_step_last (done_ l1 l2 : list (Call * Response)) (c c0 : Call) (r r0 : Response) :
  Forall (fun cr => failed_step cr.1 cr.2 = false) done_ ->
  l1 ++ (c, r) :: l2 = done_ ++ [(c0, r0)] ->
  failed_step c r = true ->
  l2 = [] /\ l1 = done_ /\ c = c0 /\ r = r0.
Proof.
  revert l1. induction done_ as [|d done_ IH]; intros l1 Hall Heq Hf.
  - destruct l1 as [|x l1]; simplify_eq/=; [done|].
    by destruct l1.
  - apply Forall_cons in Hall as [Hd Hall].
    destruct l1 as [|x l1]; simplify_eq/=.
    + congruence.
    + destruct (IH l1 Hall ltac:(done) Hf) as (-> & -> & -> & ->). done.
Qed.

(* ===================================================================== *)
(** ** Properties of the rollback *)
(* ===================================================================== *)

(** Unfolds the monad so that a run becomes nested matches on the answers
    of the client. *)
Ltac exec_unfold :=
  unfold Infof, Errorf, logModifiedRules in *;
  unfold Exec.run, Exec.bind, Exec.remote, Exec.emit, Exec.ret, Exec.returns in *;
  cbn beta in *.

(** Splits on every answer a run depends on. *)
Ltac exec_cases :=
  repeat (case_match; simplify_eq/=; exec_unfold; simplify_eq/=).

Section RollbackProperties.
Context {W : Type}.
Variable StageRollback : string.
Variable canaryTargetGroupArnKey : string.
Variable DefaultRegistry_Client :
  string -> config.PlatformProviderECSConfig -> error + provider.Client W.
Variable applyServiceDefinition :
  provider.Client W -> types.Service -> W -> (error + types.Service) * W.
Variable findPlatformProvider :
  executor.Input -> option (string * config.PlatformProviderECSConfig).
Variable loadTaskDefinition :
  executor.Input -> string -> deploysource.DeploySource -> option types.TaskDefinition.
Variable loadServiceDefinition :
  executor.Input -> string -> deploysource.DeploySource -> option types.Service.
Variable loadTargetGroups :
  executor.Input -> config.ECSApplicationSpec -> deploysource.DeploySource ->
  option (option types.LoadBalancer * option types.LoadBalancer).
Variable DetermineStageStatus :
  executor.StopSignalType -> model.StageStatus -> model.StageStatus -> model.StageStatus.

Local Abbreviation rollbackELB := (ecs.rollbackELB canaryTargetGroupArnKey).
Local Abbreviation rollback :=
  (ecs.rollback canaryTargetGroupArnKey DefaultRegistry_Client applyServiceDefinition).
Local Abbreviation ensureRollback :=
  (ecs.ensureRollback canaryTargetGroupArnKey DefaultRegistry_Client
     applyServiceDefinition findPlatformProvider loadTaskDefinition
     loadServiceDefinition loadTargetGroups).
Local Abbreviation Execute :=
  (ecs.Execute StageRollback canaryTargetGroupArnKey DefaultRegistry_Client
     applyServiceDefinition findPlatformProvider loadTaskDefinition
     loadServiceDefinition loadTargetGroups DetermineStageStatus).

(** *** The deletion loop *)

Lemma deleteTaskSets_calls (client : provider.Client W) (prev : list types.TaskSet) (w : W) :
  match ecs.deleteTaskSets client prev w with
  | (inr _, evs, _) =>
      remote_calls evs = map deleted_ok prev /\
      reported_rules evs = [] /\ metadata_reads evs = [] /\ client_lookups evs = []
  | (inl b, evs, _) =>
      b = false /\ reported_rules evs = [] /\ metadata_reads evs = [] /\
      client_lookups evs = [] /\
      exists done_ ts err rest,
        prev = done_ ++ ts :: rest /\
        remote_calls evs =
          map deleted_ok done_ ++ [(CDeleteTaskSet ts, RDeleted (Some err))]
  end.
Proof.
  revert w. induction prev as [|ts prev IH]; intros w; [done|].
  simpl. exec_unfold.
  destruct (provider.DeleteTaskSet client ts w) as [[err|] w1] eqn:Hdel; simpl.
  - split_and!; try done. by exists [], ts, err, prev.
  - specialize (IH w1).
    destruct (ecs.deleteTaskSets client prev w1) as [[[b|[]] evs] w2]; simpl.
    + destruct IH as (-> & ? & ? & ? & done_ & ts' & err & rest & -> & ->).
      split_and!; try done. by exists (ts :: done_), ts', err, rest.
    + destruct IH as (-> & ? & ? & ?). done.
Qed.

(** *** The listener reconciliation *)

Ltac elb_case :=
  first
    [ done
    | by apply no_rules
    | left; split; [done|]; by repeat eexists
    | right; left; split; [done|]; by repeat eexists
    | right; right; split; [done|]; by repeat eexists ].

Lemma rollbackELB_cases (in_ : executor.Input) (client : provider.Client W)
    (p : types.LoadBalancer) (canary : option types.LoadBalancer)
    (w w' : W) (ok : bool) (evs : list Event) :
  rollbackELB in_ client p canary w = (ok, evs, w') ->
  client_lookups evs = [] /\
  reported_rules evs = answered_rules (remote_calls evs) /\
  metadata_reads evs =
    match canary with Some _ => [] | None => [canaryTargetGroupArnKey] end /\
  match resolved_canary canaryTargetGroupArnKey in_ canary with
  | None => ok = true /\ remote_calls evs = [] /\ w' = w
  | Some arn =>
      (ok = true /\ exists arns rules, remote_calls evs = elb_plan p arn arns rules) \/
      (ok = false /\ exists err,
          remote_calls evs = [(CGetListenerArns p, RListenerArns (inl err))]) \/
      (ok = false /\ exists arns rules err,
          remote_calls evs =
            [(CGetListenerArns p, RListenerArns (inr arns));
             (CModifyListeners arns (full_primary (types.TargetGroupArn p) arn),
              RModifiedRules rules (Some err))])
  end.
Proof.
  unfold ecs.rollbackELB, resolved_canary. exec_unfold. intros H.
  destruct canary as [c|]; simpl in H.
  - exec_cases; rewrite ?app_nil_r; split_and!; elb_case.
  - destruct (metadatastore.Shared (executor.MetadataStore in_)
                !! canaryTargetGroupArnKey) as [arn|] eqn:Hs; simpl in H.
    + exec_cases; rewrite ?app_nil_r; split_and!; elb_case.
    + by simplify_eq/=.
Qed.

(** *** The rollback follows its plan *)

Lemma some_reconciliation_ok (primary : option types.LoadBalancer) (resolved : option string) :
  reconciliation primary resolved (some_reconciliation primary resolved).
Proof.
  unfold reconciliation, some_reconciliation.
  destruct primary, resolved; eauto.
Qed.

(** What the deletion loop and the listener reconciliation are known to
    have emitted, brought into the context. *)
Ltac use_parts :=
  repeat match goal with
  | H : ecs.rollbackELB _ _ _ _ _ _ = _ |- _ =>
      apply rollbackELB_cases in H as (? & ? & ? & ?)
  | H : ecs.deleteTaskSets ?c ?l ?w = _ |- _ =>
      let H' := fresh in
      pose proof (deleteTaskSets_calls c l w) as H'; rewrite H in H'; clear H;
      simpl in H'; destruct_and?
  | H : exists _, _ |- _ => destruct H; destruct_and?
  end.

(** Computes the observations of a list of events built from known
    parts. *)
Ltac observe :=
  repeat first
    [ progress (rewrite ?client_lookups_app, ?reported_rules_app, ?metadata_reads_app,
                  ?remote_calls_app, ?answered_rules_app, ?answered_rules_deleted,
                  ?app_nil_r)
    | progress simpl
    | match goal with
      | H : remote_calls _ = _ |- _ => rewrite H
      | H : reported_rules _ = _ |- _ => rewrite H
      | H : client_lookups _ = _ |- _ => rewrite H
      | H : metadata_reads _ = _ |- _ => rewrite H
      end ].

(** The rules a run of [rollback] reports are those [ModifyListeners]
    answered, and it looks up the client exactly once. *)
Lemma rollback_reports (in_ : executor.Input) (name : string)
    (cfg : config.PlatformProviderECSConfig) (td : types.TaskDefinition)
    (sd : types.Service) (primary canary : option types.LoadBalancer)
    (w w' : W) (ok : bool) (evs : list Event) :
  rollback in_ name cfg td sd primary canary w = (ok, evs, w') ->
  client_lookups evs = [name] /\
  reported_rules evs = answered_rules (remote_calls evs).
Proof.
  intros H. unfold ecs.rollback in H. exec_unfold.
  exec_cases; use_parts; observe; done.
Qed.

(** The values a plan is made of, read off the answers in the context;
    a value no answer fixes is filled with a default. *)
Ltac pick_registered td :=
  lazymatch goal with
  | H : provider.RegisterTaskDefinition _ _ _ = (inr ?t, _) |- _ => exists t
  | _ => exists td
  end.

Ltac pick_service sd :=
  lazymatch goal with
  | H : applyServiceDefinition _ _ _ = (inr ?s, _) |- _ => exists s
  | _ => exists sd
  end.

Ltac pick_snapshot :=
  lazymatch goal with
  | H : provider.GetServiceTaskSets _ _ _ = (inr ?l, _) |- _ =>
      exists (@inr error _ l)
  | H : provider.GetServiceTaskSets _ _ _ = (inl ?e, _),
    H' : negb (errors_Is ?e ErrNotFound) = false |- _ =>
      exists (@inl _ (list types.TaskSet) e)
  | _ => exists (@inr error _ (@nil types.TaskSet))
  end.

Ltac pick_created :=
  lazymatch goal with
  | H : provider.CreateTaskSet _ _ _ _ _ _ = (inr ?t, _) |- _ => exists t
  | _ => exists no_task_set
  end.

Ltac pick_promoted :=
  lazymatch goal with
  | H : provider.UpdateServicePrimaryTaskSet _ _ _ _ = (inr ?t, _) |- _ => exists t
  | _ => exists no_task_set
  end.

Ltac pick_reconciliation :=
  lazymatch goal with
  | |- reconciliation ?P ?R ?e =>
      lazymatch goal with
      | H : remote_calls _ = elb_plan ?p ?a ?x ?y |- _ =>
          unify e (elb_plan p a x y)
      | H : remote_calls _ =
              [(CGetListenerArns ?p, RListenerArns (inr ?x));
               (CModifyListeners _ (full_primary _ ?a), _)] |- _ =>
          unify e (elb_plan p a x (@nil string))
      | _ => unify e (some_reconciliation P R)
      end
  end;
  first [ apply some_reconciliation_ok | by (unfold reconciliation; eauto) ].

(** Splits the calls of a run into those that went well and the last. *)
Ltac stops_here :=
  lazymatch goal with
  | |- _ = ?d ++ [_] =>
      first
        [ rewrite !app_comm_cons; reflexivity
        | unify d (@nil (Call * Response)); reflexivity
        | (let l := open_constr:([_]) in unify d l); reflexivity
        | (let l := open_constr:([_; _]) in unify d l); reflexivity
        | (let l := open_constr:([_; _; _]) in unify d l); reflexivity
        | (let l := open_constr:([_; _; _; _]) in unify d l); reflexivity
        | (let l := open_constr:([_; _; _; _; _]) in unify d l); reflexivity
        | (let l := open_constr:([_; _; _; _; _; _]) in unify d l); reflexivity ]
  end.

(** Every run of [rollback] follows a plan: it answers [true] after all
    the calls of the plan, or [false] after the calls up to the first one
    that failed (or when no client could be created). *)
Lemma rollback_follows_plan (in_ : executor.Input) (name : string)
    (cfg : config.PlatformProviderECSConfig) (td : types.TaskDefinition)
    (sd : types.Service) (primary canary : option types.LoadBalancer)
    (w w' : W) (ok : bool) (evs : list Event) :
  rollback in_ name cfg td sd primary canary w = (ok, evs, w') ->
  (exists err, DefaultRegistry_Client name cfg = inl err /\
      ok = false /\ remote_calls evs = []) \/
  exists td' svc snap ts ts' elb,
    failed_step (CGetServiceTaskSets svc) (RTaskSets snap) = false /\
    reconciliation primary (resolved_canary canaryTargetGroupArnKey in_ canary) elb /\
    ((ok = true /\
        remote_calls evs = rollback_plan td sd primary td' svc snap ts ts' elb) \/
     (ok = false /\ exists done_ c r r' rest,
        rollback_plan td sd primary td' svc snap ts ts' elb = done_ ++ (c, r') :: rest /\
        remote_calls evs = done_ ++ [(c, r)] /\
        failed_step c r = true)).
Proof.
  intros H. unfold ecs.rollback in H. exec_unfold.
  exec_cases; use_parts; observe.
  { left. eauto. }
  all: right.
  all: repeat match goal with
         | H : match resolved_canary ?k ?i ?c with Some _ => _ | None => _ end |- _ =>
             destruct (resolved_canary k i c) eqn:?
         | H : _ \/ _ |- _ => destruct H
         | H : _ /\ _ |- _ => destruct H
         | H : exists _, _ |- _ => destruct H
         end; simplify_eq/=; observe.
  all: pick_registered td; pick_service sd; pick_snapshot; pick_created; pick_promoted.
  all: eexists; apply and_rev3; [| pick_reconciliation | done].
  all: first [ by left | right; split; [done|] ].
  all: do 5 eexists; apply and_rev3; [| stops_here | ].
  all: try done.
  all: unfold rollback_plan, elb_plan, some_reconciliation; simpl;
       rewrite ?map_app; simpl; reflexivity.
Qed.

(** Every call of a plan was answered without a failure. *)
Lemma rollback_plan_went_well (td td' : types.TaskDefinition) (sd svc : types.Service)
    (primary : option types.LoadBalancer) (resolved : option string)
    (snap : error + list types.TaskSet) (ts ts' : types.TaskSet)
    (elb : list (Call * Response)) :
  failed_step (CGetServiceTaskSets svc) (RTaskSets snap) = false ->
  reconciliation primary resolved elb ->
  Forall (fun cr => failed_step cr.1 cr.2 = false)
    (rollback_plan td sd primary td' svc snap ts ts' elb).
Proof.
  intros Hsnap Helb. unfold rollback_plan.
  repeat (apply Forall_cons; split; [done|]).
  apply Forall_app; split.
  - unfold reconciliation in Helb.
    destruct primary, resolved; try (subst elb; by constructor).
    destruct Helb as (arns & rules & ->). unfold elb_plan.
    by repeat (apply Forall_cons; split; [done|]).
  - apply Forall_forall. intros cr Hin.
    apply list_elem_of_In, in_map_iff in Hin as (x & <- & _). done.
Qed.

(** A failed step is the last call of a run of [rollback], which then
    answers [false]. *)
Lemma rollback_failure_is_last (in_ : executor.Input) (name : string)
    (cfg : config.PlatformProviderECSConfig) (td : types.TaskDefinition)
    (sd : types.Service) (primary canary : option types.LoadBalancer)
    (w w' : W) (ok : bool) (evs pre post : list Event) (c : Call) (r : Response) :
  rollback in_ name cfg td sd primary canary w = (ok, evs, w') ->
  evs = pre ++ EvCall c r :: post ->
  failed_step c r = true ->
  remote_calls post = [] /\ ok = false.
Proof.
  intros Hrun Hevs Hfail.
  apply rollback_follows_plan in Hrun
    as [(err & _ & _ & Hnone)|(td' & svc & snap & ts & ts' & elb & Hsnap & Helb & Hplan)].
  - rewrite Hevs, remote_calls_app in Hnone. simpl in Hnone.
    by apply app_eq_nil in Hnone as [_ ?].
  - pose proof (rollback_plan_went_well td td' sd svc primary _ snap ts ts' elb
                  Hsnap Helb) as Hwell.
    rewrite Hevs, remote_calls_app in Hplan. simpl in Hplan.
    destruct Hplan as [[-> Heq]|[-> (done_ & c0 & r0 & r' & rest & Hsplit & Heq & _)]].
    + rewrite <- Heq in Hwell.
      apply Forall_app in Hwell as [_ Hwell].
      apply Forall_cons in Hwell as [Hc _]. simpl in Hc. congruence.
    + rewrite Hsplit in Hwell. apply Forall_app in Hwell as [Hwell _].
      by destruct (failed_step_last _ _ _ _ _ _ _ Hwell Heq Hfail) as (-> & _).
Qed.

(** *** The stage around the rollback *)

(** [ensureRollback] either fails before touching the platform, or runs
    [rollback] on what the loaders gave and reports its answer. *)
Lemma ensureRollback_cases (e : executor.Input) (w w' : W)
    (status : model.StageStatus) (evs : list Event) :
  ensureRollback e w = (status, evs, w') ->
  (status = model.StageStatus_STAGE_FAILURE /\ w' = w /\
   remote_calls evs = [] /\ client_lookups evs = [] /\
   reported_rules evs = [] /\ metadata_reads evs = []) \/
  (exists name cfg td sd primary canary ok,
     model.RunningCommitHash (executor.Deployment e) <> EmptyString /\
     rollback e name cfg td sd primary canary w = (ok, evs, w') /\
     status = if ok then model.StageStatus_STAGE_SUCCESS
              else model.StageStatus_STAGE_FAILURE).
Proof.
  unfold ecs.ensureRollback. exec_unfold. intros H.
  destruct (String.eqb _ EmptyString) eqn:Hhash; simpl in H.
  { simplify_eq. left. by split_and!. }
  apply String.eqb_neq in Hhash.
  repeat (case_match; simplify_eq/=; try (left; by split_and!)).
  all: right; rewrite ?app_nil_r; do 7 eexists; split_and!; [done | eassumption | done].
Qed.

(** *** What a plan contains *)

Lemma deletions_only_delete (prev : list types.TaskSet) (c : Call) (r : Response) :
  In (c, r) (map deleted_ok prev) -> is_delete c = true /\ r = RDeleted None.
Proof. intros Hin. apply in_map_iff in Hin as (x & Hx & _). by inversion Hx. Qed.

(** Where a plan holds a given call with its answer: among the five
    leading calls, in the reconciliation, or among the deletions. *)
Lemma in_rollback_plan (td td' : types.TaskDefinition) (sd svc : types.Service)
    (primary : option types.LoadBalancer) (resolved : option string)
    (snap : error + list types.TaskSet) (ts ts' : types.TaskSet)
    (elb : list (Call * Response)) (c : Call) (r : Response) :
  reconciliation primary resolved elb ->
  In (c, r) (rollback_plan td sd primary td' svc snap ts ts' elb) ->
  (c, r) = (CRegisterTaskDefinition td, RTaskDefinition (inr td')) \/
  (c, r) = (CApplyServiceDefinition sd, RService (inr svc)) \/
  (c, r) = (CGetServiceTaskSets svc, RTaskSets snap) \/
  (c, r) = (CCreateTaskSet svc td' primary 100, RTaskSet (inr ts)) \/
  (c, r) = (CUpdateServicePrimaryTaskSet svc ts, RTaskSet (inr ts')) \/
  (exists p arn arns rules,
      primary = Some p /\ resolved = Some arn /\
      ((c, r) = (CGetListenerArns p, RListenerArns (inr arns)) \/
       (c, r) = (CModifyListeners arns (full_primary (types.TargetGroupArn p) arn),
                 RModifiedRules rules None))) \/
  (exists t, In t (snapshot snap) /\ (c, r) = deleted_ok t).
Proof.
  intros Helb Hin. unfold rollback_plan in Hin. simpl in Hin.
  destruct Hin as [<-|[<-|[<-|[<-|[<-|Hin]]]]];
    [by left | by right; left | by do 2 right; left | by do 3 right; left
    | by do 4 right; left |].
  apply in_app_iff in Hin as [Hin|Hin].
  - do 5 right. left. unfold reconciliation in Helb.
    destruct primary as [p|], resolved as [arn|]; try (by subst elb).
    destruct Helb as (arns & rules & ->). simpl in Hin.
    exists p, arn, arns, rules.
    destruct Hin as [<-|[<-|[]]]; split_and!; try done; [by left | by right].
  - do 6 right. apply in_map_iff in Hin as (t & <- & Ht). by exists t.
Qed.

(** In a plan no answer of [ModifyListeners] comes before a call of
    [ModifyListeners]. *)
Lemma plan_before_modify (td td' : types.TaskDefinition) (sd svc : types.Service)
    (primary : option types.LoadBalancer) (resolved : option string)
    (snap : error + list types.TaskSet) (ts ts' : types.TaskSet)
    (elb done_ rest : list (Call * Response))
    (arns : list string) (rcfg : provider.RoutingTrafficConfig) (r' : Response) :
  reconciliation primary resolved elb ->
  rollback_plan td sd primary td' svc snap ts ts' elb =
    done_ ++ (CModifyListeners arns rcfg, r') :: rest ->
  answered_rules done_ = [].
Proof.
  intros Helb H. unfold rollback_plan in H.
  assert (Hdel : forall l d x,
             map deleted_ok l <> d ++ (CModifyListeners arns rcfg, r') :: x).
  { intros l d x Heq.
    assert (Hin : In (CModifyListeners arns rcfg, r') (map deleted_ok l))
      by (rewrite Heq; apply in_elt).
    by apply deletions_only_delete in Hin as [? _]. }
  do 5 (destruct done_ as [|? done_]; [by simplify_eq/=|];
        simpl in H; injection H as <- H).
  unfold reconciliation in Helb.
  destruct primary as [p|], resolved as [a|]; try (subst elb; by apply Hdel in H).
  destruct Helb as (x & y & ->). simpl in H.
  destruct done_ as [|? [|? done_]]; [by simplify_eq/= | by simplify_eq/= |].
  simpl in H. injection H as <- <- H. by apply Hdel in H.
Qed.

(** The calls of a run of [rollback] are the first calls of a plan, all of
    them exactly when it answers [true]; an answer without a failure is
    the one the plan holds. *)
Lemma rollback_within_plan (in_ : executor.Input) (name : string)
    (cfg : config.PlatformProviderECSConfig) (td : types.TaskDefinition)
    (sd : types.Service) (primary canary : option types.LoadBalancer)
    (w w' : W) (ok : bool) (evs : list Event) :
  rollback in_ name cfg td sd primary canary w = (ok, evs, w') ->
  exists td' svc snap ts ts' elb,
    failed_step (CGetServiceTaskSets svc) (RTaskSets snap) = false /\
    reconciliation primary (resolved_canary canaryTargetGroupArnKey in_ canary) elb /\
    (remote_calls evs).*1 `prefix_of`
      (rollback_plan td sd primary td' svc snap ts ts' elb).*1 /\
    (ok = true <->
       remote_calls evs = rollback_plan td sd primary td' svc snap ts ts' elb) /\
    (forall c r, In (c, r) (remote_calls evs) -> failed_step c r = false ->
       In (c, r) (rollback_plan td sd primary td' svc snap ts ts' elb)).
Proof.
  intros Hrun.
  apply rollback_follows_plan in Hrun
    as [(err & _ & -> & Hnone)|(td' & svc & snap & ts & ts' & elb & Hsnap & Helb & Hplan)].
  - exists td, sd, (inr []), no_task_set, no_task_set,
      (some_reconciliation primary (resolved_canary canaryTargetGroupArnKey in_ canary)).
    rewrite Hnone. split_and!; try done.
    + apply some_reconciliation_ok.
    + apply prefix_nil.
  - exists td', svc, snap, ts, ts', elb.
    pose proof (rollback_plan_went_well td td' sd svc primary _ snap ts ts' elb
                  Hsnap Helb) as Hwell.
    destruct Hplan as [[-> Heq]|[-> (done_ & c0 & r0 & r' & rest & Hsplit & Heq & Hfail)]].
    + rewrite Heq. by split_and!.
    + rewrite Heq, Hsplit. split_and!; try done.
      * rewrite !fmap_app. simpl. by apply prefix_app, prefix_cons, prefix_nil.
      * split; [done|]. intros Hsame. apply app_inv_head in Hsame.
        injection Hsame as -> _.
        rewrite Hsplit in Hwell. apply Forall_app in Hwell as [_ Hwell].
        apply Forall_cons in Hwell as [Hc _]. simpl in Hc. congruence.
      * intros c r Hin Hok. apply in_app_iff. apply in_app_iff in Hin as [?|Hin].
        -- by left.
        -- destruct Hin as [[= <- <-]|[]]. congruence.
Qed.

(** C1: the rollback issues its operations in the order of the plan
    (re-register the task definition, re-apply the service definition,
    snapshot the current task sets, create a task set on the primary target
    group at scale 100, promote it, reconcile the listeners when there is a
    primary target group and a canary group is known, delete the
    snapshotted task sets).  Either no client could be created, and it
    answers false without a call; or there is a plan, every step of which
    is answered without a failure, such that it answers true after all the
    calls of the plan, or false after the calls of the plan up to a step
    whose answer, instead of the plan's, is a failure.  So its calls are
    the first calls of the plan, it answers true exactly when the whole
    plan went through, and after a failed step it issues no further call
    and answers false. *)
Theorem rollback_order_and_abort (in_ : executor.Input) (name : string)
    (cfg : config.PlatformProviderECSConfig) (td : types.TaskDefinition)
    (sd : types.Service) (primary canary : option types.LoadBalancer)
    (w w' : W) (ok : bool) (evs : list Event) :
  rollback in_ name cfg td sd primary canary w = (ok, evs, w') ->
  ((exists err, DefaultRegistry_Client name cfg = inl err /\
      ok = false /\ remote_calls evs = []) \/
   (exists td' svc snap ts ts' elb,
      failed_step (CGetServiceTaskSets svc) (RTaskSets snap) = false /\
      reconciliation primary (resolved_canary canaryTargetGroupArnKey in_ canary) elb /\
      Forall (fun cr => failed_step cr.1 cr.2 = false)
        (rollback_plan td sd primary td' svc snap ts ts' elb) /\
      ((ok = true /\
          remote_calls evs = rollback_plan td sd primary td' svc snap ts ts' elb) \/
       (ok = false /\ exists done_ c r r' rest,
          rollback_plan td sd primary td' svc snap ts ts' elb =
            done_ ++ (c, r') :: rest /\
          remote_calls evs = done_ ++ [(c, r)] /\
          failed_step c r = true)))) /\
  (exists td' svc snap ts ts' elb,
      failed_step (CGetServiceTaskSets svc) (RTaskSets snap) = false /\
      reconciliation primary (resolved_canary canaryTargetGroupArnKey in_ canary) elb /\
      (remote_calls evs).*1 `prefix_of`
        (rollback_plan td sd primary td' svc snap ts ts' elb).*1 /\
      (ok = true <->
         remote_calls evs = rollback_plan td sd primary td' svc snap ts ts' elb)) /\
  (forall pre c r post,
      evs = pre ++ EvCall c r :: post ->
      failed_step c r = true ->
      remote_calls post = [] /\ ok = false).
Proof.
  intros Hrun. split_and!.
  - pose proof Hrun as Hplan.
    apply rollback_follows_plan in Hplan
      as [Hnone|(td' & svc & snap & ts & ts' & elb & Hsnap & Helb & Hplan)];
      [by left|right].
    exists td', svc, snap, ts, ts', elb. split_and!; try done.
    by eapply rollback_plan_went_well.
  - destruct (rollback_within_plan _ _ _ _ _ _ _ _ _ _ _ Hrun)
      as (td' & svc & snap & ts & ts' & elb & H1 & H2 & H3 & H4 & _).
    by exists td', svc, snap, ts, ts', elb.
  - intros pre c r post Hevs Hfail.
    by eapply rollback_failure_is_last.
Qed.

(** A call the rollback issued is a call of its plan. *)
Lemma call_in_plan (calls plan : list (Call * Response)) (c : Call) (r : Response) :
  calls.*1 `prefix_of` plan.*1 ->
  In (c, r) calls ->
  exists r', In (c, r') plan.
Proof.
  intros [k Hk] Hin.
  assert (Hc : c ∈ plan.*1).
  { rewrite Hk. apply elem_of_app. left.
    apply list_elem_of_fmap. exists (c, r). split; [done|].
    by apply list_elem_of_In. }
  apply list_elem_of_fmap in Hc as ([c' r'] & -> & Hin').
  exists r'. by apply list_elem_of_In.
Qed.

(** C5: every [ModifyListeners] call of a rollback, so in particular of a
    successful one, carries the configuration with weight 100 for the
    primary target group and weight 0 for the canary target group, whose
    weights sum up to 100. *)
Theorem rollback_weights (in_ : executor.Input) (name : string)
    (cfg : config.PlatformProviderECSConfig) (td : types.TaskDefinition)
    (sd : types.Service) (primary canary : option types.LoadBalancer)
    (w w' : W) (ok : bool) (evs : list Event)
    (arns : list string) (rcfg : provider.RoutingTrafficConfig) (r : Response) :
  rollback in_ name cfg td sd primary canary w = (ok, evs, w') ->
  In (EvCall (CModifyListeners arns rcfg) r) evs ->
  exists p canaryArn,
    primary = Some p /\
    resolved_canary canaryTargetGroupArnKey in_ canary = Some canaryArn /\
    rcfg = [ {| provider.TargetGroupArn := types.TargetGroupArn p;
                provider.Weight := 100 |};
             {| provider.TargetGroupArn := canaryArn;
                provider.Weight := 0 |} ] /\
    sum_weights rcfg = 100%Z.
Proof.
  intros Hrun Hin. apply In_remote_calls in Hin.
  destruct (rollback_within_plan _ _ _ _ _ _ _ _ _ _ _ Hrun)
    as (td' & svc & snap & ts & ts' & elb & _ & Helb & Hpre & _ & _).
  destruct (call_in_plan _ _ _ _ Hpre Hin) as [r' Hin'].
  apply (in_rollback_plan _ _ _ _ _ _ _ _ _ _ _ _ Helb) in Hin'
    as [?|[?|[?|[?|[?|[(p & arn & a & rules & -> & Hres & [?|Heq])|(t & _ & ?)]]]]]];
    try discriminate.
  injection Heq as -> -> _. by exists p, arn.
Qed.

(** When [ModifyListeners] fails, [rollback] answers [false] and the rules
    it reports are the rules that call said it had modified. *)
Lemma rollback_partial_modification (in_ : executor.Input) (name : string)
    (cfg : config.PlatformProviderECSConfig) (td : types.TaskDefinition)
    (sd : types.Service) (primary canary : option types.LoadBalancer)
    (w w' : W) (ok : bool) (evs : list Event)
    (arns rules : list string) (rcfg : provider.RoutingTrafficConfig) (err : error) :
  rollback in_ name cfg td sd primary canary w = (ok, evs, w') ->
  In (EvCall (CModifyListeners arns rcfg) (RModifiedRules rules (Some err))) evs ->
  ok = false /\ reported_rules evs = rules.
Proof.
  intros Hrun Hin.
  destruct (rollback_reports _ _ _ _ _ _ _ _ _ _ _ Hrun) as [_ ->].
  apply in_split in Hin as (pre & post & Hevs).
  destruct (rollback_failure_is_last _ _ _ _ _ _ _ _ _ _ _ _ _ _ _ Hrun Hevs)
    as [Hpost ->]; [done|]. split; [done|].
  apply rollback_follows_plan in Hrun
    as [(e & _ & _ & Hnone)|(td' & svc & snap & ts & ts' & elb & _ & Helb & Hplan)].
  - rewrite Hevs, remote_calls_app in Hnone.
    by apply app_eq_nil in Hnone as [_ ?].
  - destruct Hplan as [[? _]|[_ (done_ & c0 & r0 & r' & rest & Hsplit & Heq & _)]];
      [done|].
    rewrite Hevs, remote_calls_app in Heq. simpl in Heq. rewrite Hpost in Heq.
    apply app_inj_tail in Heq as [Hpre [= <- <-]].
    rewrite Hevs, remote_calls_app, answered_rules_app, Hpre. simpl.
    rewrite Hpost. simpl.
    rewrite (plan_before_modify _ _ _ _ _ _ _ _ _ _ _ _ _ _ _ Helb Hsplit).
    by rewrite app_nil_r.
Qed.

(** C6: when [ModifyListeners] returns an error after modifying some
    rules, the rollback stage reports FAILURE and the modified rules it
    reports are exactly the rules that call returned, as many and the
    same. *)
Theorem partial_modification_reported (e : executor.Input) (w w' : W)
    (status : model.StageStatus) (evs : list Event)
    (arns rules : list string) (rcfg : provider.RoutingTrafficConfig) (err : error) :
  ensureRollback e w = (status, evs, w') ->
  In (EvCall (CModifyListeners arns rcfg) (RModifiedRules rules (Some err))) evs ->
  status = model.StageStatus_STAGE_FAILURE /\
  reported_rules evs = rules /\
  length (reported_rules evs) = length rules.
Proof.
  intros Hrun Hin.
  apply ensureRollback_cases in Hrun
    as [(_ & _ & Hnone & _)|(name & cfg & td & sd & primary & canary & ok & _ & Hrun & ->)].
  - apply In_remote_calls in Hin. rewrite Hnone in Hin. destruct Hin.
  - destruct (rollback_partial_modification _ _ _ _ _ _ _ _ _ _ _ _ _ _ _ Hrun Hin)
      as [-> ->]. done.
Qed.

(** C7: when the deletion of a snapshotted task set fails, the rollback
    stage reports FAILURE and issues no call on the platform client after
    the failing deletion: the task sets deleted before stay deleted and
    nothing is created again. *)
Theorem failed_deletion_stops (e : executor.Input) (w w' : W)
    (status : model.StageStatus) (evs pre post : list Event)
    (ts : types.TaskSet) (err : error) :
  ensureRollback e w = (status, evs, w') ->
  evs = pre ++ EvCall (CDeleteTaskSet ts) (RDeleted (Some err)) :: post ->
  status = model.StageStatus_STAGE_FAILURE /\
  remote_calls post = [] /\
  (forall c r, In (EvCall c r) post -> False).
Proof.
  intros Hrun Hevs.
  apply ensureRollback_cases in Hrun
    as [(_ & _ & Hnone & _)|(name & cfg & td & sd & primary & canary & ok & _ & Hrun & ->)].
  - rewrite Hevs, remote_calls_app in Hnone.
    by apply app_eq_nil in Hnone as [_ ?].
  - destruct (rollback_failure_is_last _ _ _ _ _ _ _ _ _ _ _ _ _ _ _ Hrun Hevs)
      as [Hpost ->]; [done|].
    split_and!; try done.
    intros c r Hin. apply In_remote_calls in Hin. by rewrite Hpost in Hin.
Qed.





(** C3: when the running commit hash of the deployment is empty, the
    rollback stage reports FAILURE at once: it looks up no client and calls
    none, and this FAILURE is the raw result [Execute] hands to the decision
    rule. *)
Theorem first_deployment_fails (e : executor.Input) (sig : executor.StopSignal W) (w : W) :
  model.RunningCommitHash (executor.Deployment e) = EmptyString ->
  exists evs,
    ensureRollback e w = (model.StageStatus_STAGE_FAILURE, evs, w) /\
    remote_calls evs = [] /\ client_lookups evs = [] /\ metadata_reads evs = [] /\
    (model.Name (executor.Stage e) = StageRollback ->
     Execute e sig w =
       (DetermineStageStatus (executor.Signal sig w)
          (model.Status (executor.Stage e)) model.StageStatus_STAGE_FAILURE,
        evs, w)).
Proof.
  intros Hhash. eexists. split_and!.
  - unfold ecs.ensureRollback. exec_unfold. rewrite Hhash. reflexivity.
  - done.
  - done.
  - done.
  - intros Hname. unfold ecs.Execute, ecs.ensureRollback. exec_unfold.
    rewrite Hname, String.eqb_refl, Hhash. reflexivity.
Qed.


(** C10: for a stage whose name is not the rollback stage name, [Execute]
    returns FAILURE itself, whatever the decision rule and the stop signal
    are, without looking up a client, calling it or reading the metadata. *)
Theorem unsupported_stage_fails (e : executor.Input) (sig : executor.StopSignal W) (w : W) :
  model.Name (executor.Stage e) <> StageRollback ->
  exists evs,
    Execute e sig w = (model.StageStatus_STAGE_FAILURE, evs, w) /\
    remote_calls evs = [] /\ client_lookups evs = [] /\ metadata_reads evs = [].
Proof.
  intros Hname. apply String.eqb_neq in Hname.
  eexists. split_and!.
  - unfold ecs.Execute. rewrite Hname. exec_unfold. reflexivity.
  - done.
  - done.
  - done.
Qed.



(** *** More on the runs of the rollback *)

Lemma error_logs_app (a b : list Event) :
  error_logs (a ++ b) = error_logs a ++ error_logs b.
Proof.
  induction a as [|e a IH]; [done|].
  destruct e as [| | |[] ? ?|]; simpl; by rewrite ?IH.
Qed.

(** The deletion loop logs one error line when it fails, none otherwise. *)
Lemma deleteTaskSets_logs (client : provider.Client W) (prev : list types.TaskSet) (w : W) :
  match ecs.deleteTaskSets client prev w with
  | (inr _, evs, _) => error_logs evs = []
  | (inl b, evs, _) => b = false /\ length (error_logs evs) = 1
  end.
Proof.
  revert w. induction prev as [|ts prev IH]; intros w; [done|].
  simpl. exec_unfold.
  destruct (provider.DeleteTaskSet client ts w) as [[err|] w1] eqn:Hdel; simpl; [done|].
  specialize (IH w1).
  by destruct (ecs.deleteTaskSets client prev w1) as [[[b|[]] evs] w2].
Qed.

(** The listener reconciliation logs one error line when it fails, none
    otherwise. *)
Lemma rollbackELB_logs (in_ : executor.Input) (client : provider.Client W)
    (p : types.LoadBalancer) (canary : option types.LoadBalancer)
    (w w' : W) (ok : bool) (evs : list Event) :
  rollbackELB in_ client p canary w = (ok, evs, w') ->
  length (error_logs evs) = if ok then 0 else 1.
Proof.
  unfold ecs.rollbackELB. exec_unfold. intros H.
  destruct canary as [c|]; simpl in H.
  - by exec_cases.
  - destruct (metadatastore.Shared (executor.MetadataStore in_)
                !! canaryTargetGroupArnKey) as [arn|] eqn:Hs; simpl in H.
    + by exec_cases.
    + by simplify_eq/=.
Qed.

(** Brings in what the parts of a run logged, and counts. *)
Ltac count_logs :=
  repeat match goal with
  | H : ecs.rollbackELB _ _ _ _ _ _ = _ |- _ => apply rollbackELB_logs in H
  | H : ecs.deleteTaskSets ?c ?l ?w = _ |- _ =>
      let H' := fresh in
      pose proof (deleteTaskSets_logs c l w) as H'; rewrite H in H'; clear H;
      simpl in H'; destruct_and?
  end;
  repeat first
    [ progress (rewrite ?error_logs_app, ?length_app)
    | progress simpl
    | match goal with
      | H : error_logs _ = _ |- _ => rewrite H
      | H : length (error_logs _) = _ |- _ => rewrite H
      end ].

(** X11: [rollback] and [rollbackELB] call [Errorf] exactly once in a run
    that answers false and never in a run that answers true (what the helper
    [logModifiedRules] writes is not counted: it is a separate event). *)
Theorem rollback_logs_one_error (in_ : executor.Input) (name : string)
    (cfg : config.PlatformProviderECSConfig) (td : types.TaskDefinition)
    (sd : types.Service) (primary canary : option types.LoadBalancer)
    (w w' : W) (ok : bool) (evs : list Event) :
  rollback in_ name cfg td sd primary canary w = (ok, evs, w') ->
  length (error_logs evs) = if ok then 0 else 1.
Proof.
  intros H. unfold ecs.rollback in H. exec_unfold.
  exec_cases; count_logs; simplify_eq/=; done.
Qed.

(** X12: a run of [rollback] reads the shared metadata at most once, at
    the canary-target-group key, and only when there is a primary target
    group and the prior commit has no canary target group. *)
Theorem rollback_metadata_reads (in_ : executor.Input) (name : string)
    (cfg : config.PlatformProviderECSConfig) (td : types.TaskDefinition)
    (sd : types.Service) (primary canary : option types.LoadBalancer)
    (w w' : W) (ok : bool) (evs : list Event) :
  rollback in_ name cfg td sd primary canary w = (ok, evs, w') ->
  metadata_reads evs = [] \/
  (metadata_reads evs = [canaryTargetGroupArnKey] /\ is_Some primary /\ canary = None).
Proof.
  intros H. unfold ecs.rollback in H. exec_unfold.
  exec_cases; use_parts; observe; try (by left).
  all: destruct canary; [by left|right; by split_and!].
Qed.

(** X13: when no client can be created for the provider, [rollback] answers
    false after one [Errorf] line and one lookup of the client, without any
    call to the platform or read of the metadata, and leaves the world as it
    was. *)
Theorem rollback_without_client (in_ : executor.Input) (name : string)
    (cfg : config.PlatformProviderECSConfig) (td : types.TaskDefinition)
    (sd : types.Service) (primary canary : option types.LoadBalancer)
    (w : W) (err : error) :
  DefaultRegistry_Client name cfg = inl err ->
  exists evs,
    rollback in_ name cfg td sd primary canary w = (false, evs, w) /\
    remote_calls evs = [] /\ metadata_reads evs = [] /\
    client_lookups evs = [name] /\ length (error_logs evs) = 1.
Proof.
  intros Hreg. unfold ecs.rollback. exec_unfold. rewrite Hreg.
  eexists. by split_and!.
Qed.

(** X14: without a primary target group, [rollback] calls neither
    [GetListenerArns] nor [ModifyListeners] and reads no metadata. *)
Theorem service_level_rollback (in_ : executor.Input) (name : string)
    (cfg : config.PlatformProviderECSConfig) (td : types.TaskDefinition)
    (sd : types.Service) (canary : option types.LoadBalancer)
    (w w' : W) (ok : bool) (evs : list Event) :
  rollback in_ name cfg td sd None canary w = (ok, evs, w') ->
  (forall c r, In (EvCall c r) evs -> is_listener_call c = false) /\
  metadata_reads evs = [].
Proof.
  intros Hrun. split.
  - intros c r Hin. apply In_remote_calls in Hin.
    apply rollback_within_plan in Hrun
      as (td' & svc & snap & ts & ts' & elb & _ & Helb & Hpre & _ & _).
    destruct (call_in_plan _ _ _ _ Hpre Hin) as [r' Hin'].
    apply (in_rollback_plan _ _ _ _ _ _ _ _ _ _ _ _ Helb) in Hin'
      as [?|[?|[?|[?|[?|[(p & arn & a & rules & ? & _)|(t & _ & ?)]]]]]];
      unfold deleted_ok in *; by simplify_eq.
  - unfold ecs.rollback in Hrun. exec_unfold.
    exec_cases; use_parts; observe; done.
Qed.


(** X16: when the rollback stage reports SUCCESS, no step of the run
    failed, a task set was created at scale 100 and that very task set was
    promoted, and every task set of the snapshot was deleted. *)
Theorem stage_success_guarantees (e : executor.Input) (w w' : W) (evs : list Event) :
  ensureRollback e w = (model.StageStatus_STAGE_SUCCESS, evs, w') ->
  (forall c r, In (EvCall c r) evs -> failed_step c r = false) /\
  (exists svc td' tg ts ts',
      In (EvCall (CCreateTaskSet svc td' tg 100) (RTaskSet (inr ts))) evs /\
      In (EvCall (CUpdateServicePrimaryTaskSet svc ts) (RTaskSet (inr ts'))) evs) /\
  (forall svc prev t,
      In (EvCall (CGetServiceTaskSets svc) (RTaskSets (inr prev))) evs ->
      In t prev ->
      In (EvCall (CDeleteTaskSet t) (RDeleted None)) evs).
Proof.
  intros Hrun.
  apply ensureRollback_cases in Hrun
    as [(? & _)|(name & cfg & td & sd & primary & canary & ok & _ & Hrun & Hok)];
    [done|].
  destruct ok; [|done].
  apply rollback_within_plan in Hrun
    as (td' & svc & snap & ts & ts' & elb & Hsnap & Helb & _ & [Hplan _] & _).
  specialize (Hplan eq_refl).
  pose proof (rollback_plan_went_well td td' sd svc primary _ snap ts ts' elb
                Hsnap Helb) as Hwell.
  split_and!.
  - intros c r Hin. apply In_remote_calls in Hin. rewrite Hplan in Hin.
    rewrite Forall_forall in Hwell. by apply (Hwell (c, r)), list_elem_of_In.
  - exists svc, td', primary, ts, ts'.
    rewrite !In_remote_calls, Hplan. unfold rollback_plan. simpl.
    split; [do 3 right; by left|do 4 right; by left].
  - intros svc0 prev t Hin Ht. rewrite In_remote_calls, Hplan in *.
    apply (in_rollback_plan _ _ _ _ _ _ _ _ _ _ _ _ Helb) in Hin
      as [?|[?|[Heq|[?|[?|[(p & arn & a & rules & _ & _ & [?|?])|(t0 & _ & ?)]]]]]];
      try discriminate.
    simplify_eq. unfold rollback_plan.
    apply in_app_iff. right. apply in_app_iff. right.
    apply in_map_iff. by exists t.
Qed.

End RollbackProperties.

(* ===================================================================== *)
(** ** Properties of the wait plugin *)
(* ===================================================================== *)

(** The stage descriptor the wait plugin builds for a requested stage. *)
Lemma wait_stages_fold (rss : list sdk.StageConfig.t) (acc : list sdk.PipelineStage.t) :
  fold_left
    (fun (stages : list sdk.PipelineStage.t) (rs : sdk.StageConfig.t) =>
       stages ++
       [ {| sdk.PipelineStage.Index := sdk.StageConfig.Index rs;
            sdk.PipelineStage.Name := sdk.StageConfig.Name rs;
            sdk.PipelineStage.Rollback := false;
            sdk.PipelineStage.Metadata := ∅;
            sdk.PipelineStage.AvailableOperation := sdk.ManualOperationNone |} ])
    rss acc
  = acc ++ map wait.built_stage rss.
Proof.
  revert acc. induction rss as [|rs rss IH]; intros acc; simpl.
  - by rewrite app_nil_r.
  - rewrite IH. by rewrite <- app_assoc.
Qed.

(** C9: for every build request the wait plugin answers without an error,
    with one stage descriptor per requested stage, in order, that keeps the
    index and the name of the request and has the rollback flag false, empty
    metadata and the manual operation none; and the plugin declares the one
    stage name WAIT. *)
Theorem wait_builds_each_requested_stage (input : sdk.BuildPipelineSyncStagesInput.t) :
  exists resp,
    wait.BuildPipelineSyncStages input = inr resp /\
    length (sdk.BuildPipelineSyncStagesResponse.Stages resp) =
      length (sdk.BuildPipelineSyncStagesRequest.Stages
                (sdk.BuildPipelineSyncStagesInput.Request input)) /\
    (forall i rs,
        sdk.BuildPipelineSyncStagesRequest.Stages
          (sdk.BuildPipelineSyncStagesInput.Request input) !! i = Some rs ->
        exists st,
          sdk.BuildPipelineSyncStagesResponse.Stages resp !! i = Some st /\
          sdk.PipelineStage.Index st = sdk.StageConfig.Index rs /\
          sdk.PipelineStage.Name st = sdk.StageConfig.Name rs /\
          sdk.PipelineStage.Rollback st = false /\
          sdk.PipelineStage.Metadata st = ∅ /\
          sdk.PipelineStage.AvailableOperation st = sdk.ManualOperationNone) /\
    wait.FetchDefinedStages = ["WAIT"%string].
Proof.
  eexists. split; [reflexivity|]. simpl.
  rewrite wait_stages_fold. simpl. split_and!.
  - by rewrite length_map.
  - intros i rs Hrs. exists (wait.built_stage rs). split; [|done].
    by rewrite list_lookup_fmap, Hrs.
  - done.
Qed.

(* ===================================================================== *)
(** ** The properties on concrete runs *)
(* ===================================================================== *)

(** Picks the member of a concrete list. *)
Ltac pick_member := vm_compute; repeat (first [left; reflexivity | right]).

(** C1 on a platform with two previous task sets, where the deletion of
    the second one fails: the run stops there, after eight calls of the
    plan. *)
Lemma rollback_order_and_abort_witness :
  sample.stuck_rollback = (false, sample.stuck_rollback.1.2, 9) /\
  last (remote_calls sample.stuck_rollback.1.2) =
    Some (CDeleteTaskSet (sim.oldSet "taskset:b"),
          RDeleted (Some (ErrOther "access denied"))) /\
  failed_step (CDeleteTaskSet (sim.oldSet "taskset:b"))
    (RDeleted (Some (ErrOther "access denied"))) = true /\
  ((exists err, sim.registry sim.stuck "ecs-default" sim.providerCfg = inl err /\
      false = false /\ remote_calls sample.stuck_rollback.1.2 = []) \/
   (exists td' svc snap ts ts' elb,
      failed_step (CGetServiceTaskSets svc) (RTaskSets snap) = false /\
      reconciliation (Some sim.primaryGroup)
        (resolved_canary sim.canaryTargetGroupArnKey
           (sim.input sim.StageRollback sim.deployed ∅) (Some sim.canaryGroup)) elb /\
      Forall (fun cr => failed_step cr.1 cr.2 = false)
        (rollback_plan sim.taskDefinition sim.serviceDefinition (Some sim.primaryGroup)
           td' svc snap ts ts' elb) /\
      ((false = true /\
          remote_calls sample.stuck_rollback.1.2 =
          rollback_plan sim.taskDefinition sim.serviceDefinition (Some sim.primaryGroup)
            td' svc snap ts ts' elb) \/
       (false = false /\ exists done_ c r r' rest,
          rollback_plan sim.taskDefinition sim.serviceDefinition (Some sim.primaryGroup)
            td' svc snap ts ts' elb = done_ ++ (c, r') :: rest /\
          remote_calls sample.stuck_rollback.1.2 = done_ ++ [(c, r)] /\
          failed_step c r = true)))) /\
  (exists td' svc snap ts ts' elb,
      failed_step (CGetServiceTaskSets svc) (RTaskSets snap) = false /\
      reconciliation (Some sim.primaryGroup)
        (resolved_canary sim.canaryTargetGroupArnKey
           (sim.input sim.StageRollback sim.deployed ∅) (Some sim.canaryGroup)) elb /\
      (remote_calls sample.stuck_rollback.1.2).*1 `prefix_of`
        (rollback_plan sim.taskDefinition sim.serviceDefinition (Some sim.primaryGroup)
           td' svc snap ts ts' elb).*1 /\
      (false = true <->
         remote_calls sample.stuck_rollback.1.2 =
         rollback_plan sim.taskDefinition sim.serviceDefinition (Some sim.primaryGroup)
           td' svc snap ts ts' elb)) /\
  (forall pre c r post,
      sample.stuck_rollback.1.2 = pre ++ EvCall c r :: post ->
      failed_step c r = true ->
      remote_calls post = [] /\ false = false).
Proof.
  assert (Hrun : sample.stuck_rollback = (false, sample.stuck_rollback.1.2, 9))
    by (vm_compute; reflexivity).
  assert (Hlast : last (remote_calls sample.stuck_rollback.1.2) =
                  Some (CDeleteTaskSet (sim.oldSet "taskset:b"),
                        RDeleted (Some (ErrOther "access denied"))))
    by (vm_compute; reflexivity).
  split; [exact Hrun|]. split; [exact Hlast|]. split; [reflexivity|].
  exact (rollback_order_and_abort sim.canaryTargetGroupArnKey (sim.registry sim.stuck)
           sim.applyServiceDefinition
           (sim.input sim.StageRollback sim.deployed ∅) "ecs-default" sim.providerCfg
           sim.taskDefinition sim.serviceDefinition
           (Some sim.primaryGroup) (Some sim.canaryGroup) 0 9 false _ Hrun).
Defined.

(** C5 on the healthy platform: the one [ModifyListeners] call. *)
Lemma rollback_weights_witness :
  sim.healthy_rollback = (true, sim.healthy_rollback.1.2, 8) /\
  In (EvCall (CModifyListeners ["listener:1"; "listener:2"]%string
                (full_primary "tg:primary" "tg:canary"))
             (RModifiedRules ["rule:1"; "rule:2"]%string None))
     sim.healthy_rollback.1.2 /\
  exists p canaryArn,
    Some sim.primaryGroup = Some p /\
    resolved_canary sim.canaryTargetGroupArnKey
      (sim.input sim.StageRollback sim.deployed ∅) (Some sim.canaryGroup) = Some canaryArn /\
    full_primary "tg:primary" "tg:canary" =
      [ {| provider.TargetGroupArn := types.TargetGroupArn p; provider.Weight := 100 |};
        {| provider.TargetGroupArn := canaryArn; provider.Weight := 0 |} ] /\
    sum_weights (full_primary "tg:primary" "tg:canary") = 100%Z.
Proof.
  assert (Hrun : sim.healthy_rollback = (true, sim.healthy_rollback.1.2, 8))
    by (vm_compute; reflexivity).
  assert (Hin : In (EvCall (CModifyListeners ["listener:1"; "listener:2"]%string
                              (full_primary "tg:primary" "tg:canary"))
                           (RModifiedRules ["rule:1"; "rule:2"]%string None))
                   sim.healthy_rollback.1.2) by pick_member.
  split; [exact Hrun|]. split; [exact Hin|].
  exact (rollback_weights sim.canaryTargetGroupArnKey (sim.registry sim.healthy)
           sim.applyServiceDefinition
           (sim.input sim.StageRollback sim.deployed ∅) "ecs-default" sim.providerCfg
           sim.taskDefinition sim.serviceDefinition
           (Some sim.primaryGroup) (Some sim.canaryGroup) 0 8 true _ _ _ _ Hrun Hin).
Defined.

(** C6 when [ModifyListeners] fails after changing one rule. *)
Lemma partial_modification_reported_witness :
  sim.partial_stage = (model.StageStatus_STAGE_FAILURE, sim.partial_stage.1.2, 7) /\
  In (EvCall (CModifyListeners ["listener:1"; "listener:2"]%string
                (full_primary "tg:primary" "tg:canary"))
             (RModifiedRules ["rule:1"]%string (Some (ErrOther "throttled"))))
     sim.partial_stage.1.2 /\
  model.StageStatus_STAGE_FAILURE = model.StageStatus_STAGE_FAILURE /\
  reported_rules sim.partial_stage.1.2 = ["rule:1"%string] /\
  length (reported_rules sim.partial_stage.1.2) = length ["rule:1"%string].
Proof.
  assert (Hrun : sim.partial_stage =
                 (model.StageStatus_STAGE_FAILURE, sim.partial_stage.1.2, 7))
    by (vm_compute; reflexivity).
  assert (Hin : In (EvCall (CModifyListeners ["listener:1"; "listener:2"]%string
                              (full_primary "tg:primary" "tg:canary"))
                           (RModifiedRules ["rule:1"]%string (Some (ErrOther "throttled"))))
                   sim.partial_stage.1.2) by pick_member.
  split; [exact Hrun|]. split; [exact Hin|].
  exact (partial_modification_reported sim.canaryTargetGroupArnKey (sim.registry sim.partial)
           sim.applyServiceDefinition
           sim.findPlatformProvider sim.loadTaskDefinition sim.loadServiceDefinition
           (sim.loadTargetGroups sim.both_groups)
           (sim.input sim.StageRollback sim.deployed ∅) 0 7 _ _ _ _ _ _ Hrun Hin).
Defined.

(** C7 when the deletion of the second of two task sets fails. *)
Lemma failed_deletion_stops_witness :
  sim.stuck_stage = (model.StageStatus_STAGE_FAILURE, sim.stuck_stage.1.2, 7) /\
  sim.stuck_stage.1.2 =
    take 11 sim.stuck_stage.1.2 ++
    EvCall (CDeleteTaskSet (sim.oldSet "taskset:b"))
           (RDeleted (Some (ErrOther "access denied")))
    :: drop 12 sim.stuck_stage.1.2 /\
  model.StageStatus_STAGE_FAILURE = model.StageStatus_STAGE_FAILURE /\
  remote_calls (drop 12 sim.stuck_stage.1.2) = [] /\
  (forall c r, In (EvCall c r) (drop 12 sim.stuck_stage.1.2) -> False).
Proof.
  assert (Hrun : sim.stuck_stage =
                 (model.StageStatus_STAGE_FAILURE, sim.stuck_stage.1.2, 7))
    by (vm_compute; reflexivity).
  assert (Hevs : sim.stuck_stage.1.2 =
                 take 11 sim.stuck_stage.1.2 ++
                 EvCall (CDeleteTaskSet (sim.oldSet "taskset:b"))
                        (RDeleted (Some (ErrOther "access denied")))
                 :: drop 12 sim.stuck_stage.1.2)
    by (vm_compute; reflexivity).
  split; [exact Hrun|]. split; [exact Hevs|].
  exact (failed_deletion_stops sim.canaryTargetGroupArnKey (sim.registry sim.stuck)
           sim.applyServiceDefinition
           sim.findPlatformProvider sim.loadTaskDefinition sim.loadServiceDefinition
           (sim.loadTargetGroups (None, None))
           (sim.input sim.StageRollback sim.deployed ∅) 0 7 _ _ _ _ _ _ Hrun Hevs).
Defined.


(** C3 on a first deployment, under a pending cancellation. *)
Lemma first_deployment_fails_witness :
  model.RunningCommitHash
    (executor.Deployment (sim.input sim.StageRollback EmptyString ∅)) = EmptyString /\
  exists evs,
    sim.stage_run sim.healthy EmptyString (Some sim.primaryGroup) (Some sim.canaryGroup) ∅ =
      (model.StageStatus_STAGE_FAILURE, evs, 0) /\
    remote_calls evs = [] /\ client_lookups evs = [] /\ metadata_reads evs = [] /\
    (model.Name (executor.Stage (sim.input sim.StageRollback EmptyString ∅)) =
       sim.StageRollback ->
     sim.execute_run sim.raw_result sim.healthy
       sim.StageRollback EmptyString sim.cancelled =
       (sim.raw_result (executor.Signal sim.cancelled 0)
          (model.Status (executor.Stage (sim.input sim.StageRollback EmptyString ∅)))
          model.StageStatus_STAGE_FAILURE,
        evs, 0)).
Proof.
  assert (Hhash : model.RunningCommitHash
                    (executor.Deployment (sim.input sim.StageRollback EmptyString ∅)) =
                  EmptyString) by reflexivity.
  split; [exact Hhash|].
  exact (first_deployment_fails sim.StageRollback sim.canaryTargetGroupArnKey
           (sim.registry sim.healthy) sim.applyServiceDefinition
           sim.findPlatformProvider sim.loadTaskDefinition sim.loadServiceDefinition
           (sim.loadTargetGroups sim.both_groups) sim.raw_result
           (sim.input sim.StageRollback EmptyString ∅) sim.cancelled 0 Hhash).
Defined.

(** C10 on a stage of another kind, under a pending cancellation. *)
Lemma unsupported_stage_fails_witness :
  model.Name (executor.Stage (sim.input "K8S_SYNC" sim.deployed ∅)) <> sim.StageRollback /\
  exists evs,
    sim.execute_run sim.raw_result sim.healthy
      "K8S_SYNC" sim.deployed sim.cancelled =
      (model.StageStatus_STAGE_FAILURE, evs, 0) /\
    remote_calls evs = [] /\ client_lookups evs = [] /\ metadata_reads evs = [].
Proof.
  assert (Hname : model.Name (executor.Stage (sim.input "K8S_SYNC" sim.deployed ∅)) <>
                  sim.StageRollback) by (apply String.eqb_neq; reflexivity).
  split; [exact Hname|].
  exact (unsupported_stage_fails sim.StageRollback sim.canaryTargetGroupArnKey
           (sim.registry sim.healthy) sim.applyServiceDefinition
           sim.findPlatformProvider sim.loadTaskDefinition sim.loadServiceDefinition
           (sim.loadTargetGroups sim.both_groups) sim.raw_result
           (sim.input "K8S_SYNC" sim.deployed ∅) sim.cancelled 0 Hname).
Defined.



(* ===================================================================== *)
(** ** Properties of the piped configuration *)
(* ===================================================================== *)

(** Whether some cloud provider carries the name of the default one. *)
Lemma default_named_spec (cps : list piped.PipedCloudProvider.t) :
  existsb
    (fun cp => String.eqb (piped.PipedCloudProvider.Name cp)
                 (piped.PipedCloudProvider.Name piped.DefaultKubernetesCloudProvider))
    cps = true <->
  exists cp, In cp cps /\ piped.PipedCloudProvider.Name cp = "kubernetes-default"%string.
Proof.
  rewrite existsb_exists. split; intros (cp & Hin & Hname); exists cp; split; try done.
  - by apply String.eqb_eq in Hname.
  - by apply String.eqb_eq.
Qed.

(** X1: enabling the default Kubernetes cloud provider twice is the same as
    enabling it once. *)
Theorem enable_default_idempotent (s : piped.PipedSpec.t) :
  piped.EnableDefaultKubernetesCloudProvider (piped.EnableDefaultKubernetesCloudProvider s) =
  piped.EnableDefaultKubernetesCloudProvider s.
Proof.
  unfold piped.EnableDefaultKubernetesCloudProvider at 2 3.
  destruct (existsb _ (piped.PipedSpec.CloudProviders s)) eqn:Hhas.
  - unfold piped.EnableDefaultKubernetesCloudProvider. by rewrite Hhas.
  - unfold piped.EnableDefaultKubernetesCloudProvider. simpl.
    rewrite existsb_app. simpl. by rewrite orb_true_r.
Qed.

(** X2: enabling the default Kubernetes cloud provider changes nothing but
    the list of cloud providers, which keeps its providers in order; the
    default one is appended exactly when no provider is named
    kubernetes-default (whatever the type of a provider of that name), and
    afterwards a provider of that name is there. *)
Theorem enable_default_appends (s : piped.PipedSpec.t) :
  let s' := piped.EnableDefaultKubernetesCloudProvider s in
  piped.PipedSpec.SyncInterval s' = piped.PipedSpec.SyncInterval s /\
  piped.PipedSpec.Git s' = piped.PipedSpec.Git s /\
  piped.PipedSpec.Repositories s' = piped.PipedSpec.Repositories s /\
  piped.PipedSpec.AnalysisProviders s' = piped.PipedSpec.AnalysisProviders s /\
  ((exists cp, In cp (piped.PipedSpec.CloudProviders s) /\
               piped.PipedCloudProvider.Name cp = "kubernetes-default"%string) /\
     s' = s \/
   (forall cp, In cp (piped.PipedSpec.CloudProviders s) ->
               piped.PipedCloudProvider.Name cp <> "kubernetes-default"%string) /\
     piped.PipedSpec.CloudProviders s' =
       piped.PipedSpec.CloudProviders s ++ [piped.DefaultKubernetesCloudProvider]) /\
  (exists cp, In cp (piped.PipedSpec.CloudProviders s') /\
              piped.PipedCloudProvider.Name cp = "kubernetes-default"%string).
Proof.
  unfold piped.EnableDefaultKubernetesCloudProvider.
  destruct (existsb _ (piped.PipedSpec.CloudProviders s)) eqn:Hhas; simpl.
  - apply default_named_spec in Hhas. split_and!; try done. by left.
  - split_and!; try done.
    + right. split; [|done]. intros cp Hin Hname.
      assert (Hyes : existsb
                (fun cp => String.eqb (piped.PipedCloudProvider.Name cp)
                   (piped.PipedCloudProvider.Name piped.DefaultKubernetesCloudProvider))
                (piped.PipedSpec.CloudProviders s) = true)
        by (apply default_named_spec; by exists cp).
      congruence.
    + exists piped.DefaultKubernetesCloudProvider. split; [|done].
      apply in_app_iff. right. by left.
Qed.

(** What the loop of [GetRepositoryMap] leaves under a key. *)
Lemma repository_map_fold (repos : list piped.PipedRepository.t)
    (m : gmap string piped.PipedRepository.t) (id : string) :
  fold_left (fun m repo => <[piped.PipedRepository.RepoID repo := repo]> m) repos m !! id =
  match last (filter (fun r => piped.PipedRepository.RepoID r = id) repos) with
  | Some r => Some r
  | None => m !! id
  end.
Proof.
  revert m. induction repos as [|repo repos IH]; intros m; [done|].
  simpl. rewrite IH. rewrite filter_cons.
  destruct (decide (piped.PipedRepository.RepoID repo = id)) as [Hid|Hid].
  - destruct (filter _ repos) as [|r rs] eqn:Hf; simpl.
    + by rewrite <- Hid, lookup_insert_eq.
    + destruct (last (r :: rs)) eqn:Hl; [done|]. by apply last_None in Hl.
  - destruct (last (filter _ repos)); [done|]. by rewrite lookup_insert_ne.
Qed.

(** The repository map holds, under an ID, the last repository of the list
    with that ID. *)
Lemma repository_map_lookup (s : piped.PipedSpec.t) (id : string) :
  piped.GetRepositoryMap s !! id =
  last (filter (fun r => piped.PipedRepository.RepoID r = id) (piped.PipedSpec.Repositories s)).
Proof.
  unfold piped.GetRepositoryMap. rewrite repository_map_fold.
  by destruct (last _).
Qed.

(** The first repository with a given ID. *)
Lemma findRepository_head (repos : list piped.PipedRepository.t) (id : string) :
  piped.findRepository repos id =
  match head (filter (fun r => piped.PipedRepository.RepoID r = id) repos) with
  | Some r => (r, true)
  | None => (piped.PipedRepository.zero, false)
  end.
Proof.
  induction repos as [|repo repos IH]; [done|].
  simpl. rewrite filter_cons.
  destruct (String.eqb_spec (piped.PipedRepository.RepoID repo) id) as [Hid|Hid].
  - by rewrite decide_True.
  - by rewrite decide_False.
Qed.

(** [GetRepository] answers with the first repository of the list that has
    the given ID, and with the zero repository and false when there is
    none. *)
Lemma get_repository_first_wins (s : piped.PipedSpec.t) (id : string) :
  piped.GetRepository s id =
  match head (filter (fun r => piped.PipedRepository.RepoID r = id)
                (piped.PipedSpec.Repositories s)) with
  | Some r => (r, true)
  | None => (piped.PipedRepository.zero, false)
  end.
Proof. apply findRepository_head. Qed.

(** X3: among the repositories with a given ID the repository map holds
    the last one (a later repository overwrites an earlier one) while
    [GetRepository] answers with the first one; an ID no repository has is
    in neither, and [GetRepository] then answers with the zero repository. *)
Theorem repository_map_last_get_first (s : piped.PipedSpec.t) (id : string) :
  let same := filter (fun r => piped.PipedRepository.RepoID r = id)
                (piped.PipedSpec.Repositories s) in
  piped.GetRepositoryMap s !! id = last same /\
  piped.GetRepository s id =
    match head same with
    | Some r => (r, true)
    | None => (piped.PipedRepository.zero, false)
    end.
Proof. split; [apply repository_map_lookup|apply get_repository_first_wins]. Qed.

(** X4: [GetRepository] finds a repository exactly for the IDs that are keys
    of the repository map, and what it finds carries the ID asked for. *)
Theorem get_repository_found_iff (s : piped.PipedSpec.t) (id : string) :
  ((piped.GetRepository s id).2 = true <-> is_Some (piped.GetRepositoryMap s !! id)) /\
  ((piped.GetRepository s id).2 = true ->
   piped.PipedRepository.RepoID (piped.GetRepository s id).1 = id /\
   In (piped.GetRepository s id).1 (piped.PipedSpec.Repositories s)).
Proof.
  rewrite get_repository_first_wins, repository_map_lookup.
  destruct (filter _ (piped.PipedSpec.Repositories s)) as [|r rs] eqn:Hf; simpl.
  - split; [|done]. split; [done|]. by intros [? ?].
  - assert (Hr : r ∈ filter (fun r => piped.PipedRepository.RepoID r = id)
                     (piped.PipedSpec.Repositories s))
      by (rewrite Hf; apply list_elem_of_here).
    apply list_elem_of_filter in Hr as [Hid Hin].
    split.
    + split; [|done]. intros _.
      destruct (last (r :: rs)) eqn:Hl; [done|].
      by apply last_None in Hl.
    + intros _. split; [done|]. by apply list_elem_of_In.
Qed.

(** Among repositories with distinct IDs at most one has a given ID. *)
Lemma distinct_ids_filter (repos : list piped.PipedRepository.t) (id : string) :
  NoDup (piped.PipedRepository.RepoID <$> repos) ->
  length (filter (fun r => piped.PipedRepository.RepoID r = id) repos) <= 1.
Proof.
  induction repos as [|repo repos IH]; intros Hnd; [simpl; lia|].
  rewrite fmap_cons in Hnd. apply NoDup_cons in Hnd as [Hnotin Hnd].
  rewrite filter_cons. destruct (decide _) as [Hid|Hid]; [|by apply IH].
  assert (Hnone : filter (fun r => piped.PipedRepository.RepoID r = id) repos = []).
  { destruct (filter _ repos) as [|r rs] eqn:Hf; [done|]. exfalso.
    assert (Hr : r ∈ filter (fun r => piped.PipedRepository.RepoID r = id) repos)
      by (rewrite Hf; apply list_elem_of_here).
    apply list_elem_of_filter in Hr as [Hrid Hin].
    apply Hnotin. rewrite Hid, <- Hrid. by apply list_elem_of_fmap_2. }
  rewrite Hnone. simpl. lia.
Qed.

(** X5: when the repositories have distinct IDs, the repository map and
    [GetRepository] agree: the map holds a repository under an ID exactly
    when [GetRepository] finds that repository for the ID. *)
Theorem repository_lookups_agree (s : piped.PipedSpec.t) (id : string)
    (r : piped.PipedRepository.t) :
  NoDup (piped.PipedRepository.RepoID <$> piped.PipedSpec.Repositories s) ->
  piped.GetRepositoryMap s !! id = Some r <-> piped.GetRepository s id = (r, true).
Proof.
  intros Hnd. rewrite get_repository_first_wins, repository_map_lookup.
  pose proof (distinct_ids_filter _ id Hnd) as Hlen.
  destruct (filter _ (piped.PipedSpec.Repositories s)) as [|r1 [|r2 rs]]; simpl in *.
  - split; [done|]. by intros [= _ ?].
  - split; [by intros [= ->]|by intros [= ->]].
  - lia.
Qed.

(** The first analysis provider with a given name. *)
Lemma findProvider_head (providers : list piped.AnalysisProvider.t) (name : string) :
  piped.findProvider providers name =
  match head (filter (fun p => piped.AnalysisProvider.Name p = name) providers) with
  | Some p => (p, true)
  | None => (piped.AnalysisProvider.zero, false)
  end.
Proof.
  induction providers as [|p providers IH]; [done|].
  simpl. rewrite filter_cons.
  destruct (String.eqb_spec (piped.AnalysisProvider.Name p) name) as [Hn|Hn].
  - by rewrite decide_True.
  - by rewrite decide_False.
Qed.

(** X6: [GetProvider] finds a provider exactly when some analysis provider
    has the given name; what it finds is a provider of the list with that
    name, and without one it answers with the zero provider. *)
Theorem get_provider_found_iff (s : piped.PipedSpec.t) (name : string) :
  ((piped.GetProvider s name).2 = true <->
   exists p, In p (piped.PipedSpec.AnalysisProviders s) /\
             piped.AnalysisProvider.Name p = name) /\
  ((piped.GetProvider s name).2 = true ->
   piped.AnalysisProvider.Name (piped.GetProvider s name).1 = name /\
   In (piped.GetProvider s name).1 (piped.PipedSpec.AnalysisProviders s)) /\
  ((piped.GetProvider s name).2 = false ->
   (piped.GetProvider s name).1 = piped.AnalysisProvider.zero).
Proof.
  unfold piped.GetProvider. rewrite findProvider_head.
  destruct (filter _ (piped.PipedSpec.AnalysisProviders s)) as [|p ps] eqn:Hf; simpl.
  - split_and!; try done. split; [done|]. intros (p & Hin & Hname).
    assert (Hp : p ∈ filter (fun p => piped.AnalysisProvider.Name p = name)
                     (piped.PipedSpec.AnalysisProviders s))
      by (apply list_elem_of_filter; split; [done|by apply list_elem_of_In]).
    rewrite Hf in Hp. by apply not_elem_of_nil in Hp.
  - assert (Hp : p ∈ filter (fun p => piped.AnalysisProvider.Name p = name)
                     (piped.PipedSpec.AnalysisProviders s))
      by (rewrite Hf; apply list_elem_of_here).
    apply list_elem_of_filter in Hp as [Hname Hin]. apply list_elem_of_In in Hin.
    split_and!; try done. split; [|done]. intros _. by exists p.
Qed.

(** X7: the SSH configuration is left alone exactly when the SSH config
    file path, the host, the host name and the SSH key file are all empty;
    the user name, the e-mail and the access token file play no part. *)
Theorem ssh_config_needed_iff (g : piped.PipedGit.t) :
  piped.ShouldConfigureSSHConfig g = false <->
  piped.PipedGit.SSHConfigFilePath g = EmptyString /\
  piped.PipedGit.Host g = EmptyString /\
  piped.PipedGit.HostName g = EmptyString /\
  piped.PipedGit.SSHKeyFile g = EmptyString.
Proof.
  unfold piped.ShouldConfigureSSHConfig.
  destruct (String.eqb_spec (piped.PipedGit.SSHConfigFilePath g) EmptyString);
    destruct (String.eqb_spec (piped.PipedGit.Host g) EmptyString);
    destruct (String.eqb_spec (piped.PipedGit.HostName g) EmptyString);
    destruct (String.eqb_spec (piped.PipedGit.SSHKeyFile g) EmptyString);
    simpl; split; try done; by intros (? & ? & ? & ?).
Qed.

Section UnmarshalJSONProperties.
Variable unmarshalGeneric : list Byte.byte -> error + piped.genericPipedCloudProvider.t.
Variable unmarshalKubernetes :
  list Byte.byte -> piped.CloudProviderKubernetesConfig.t ->
  piped.CloudProviderKubernetesConfig.t * option error.
Variable unmarshalTerraform :
  list Byte.byte -> piped.CloudProviderTerraformConfig.t ->
  piped.CloudProviderTerraformConfig.t * option error.
Variable unmarshalCloudRun :
  list Byte.byte -> piped.CloudProviderCloudRunConfig.t ->
  piped.CloudProviderCloudRunConfig.t * option error.
Variable unmarshalLambda :
  list Byte.byte -> piped.CloudProviderLambdaConfig.t ->
  piped.CloudProviderLambdaConfig.t * option error.

Local Abbreviation UnmarshalJSON :=
  (piped.UnmarshalJSON unmarshalGeneric unmarshalKubernetes unmarshalTerraform
     unmarshalCloudRun unmarshalLambda).

(** X8: decoding into a zero cloud provider: when the outer document cannot
    be decoded the provider stays zero; otherwise it takes the decoded name
    and type and holds exactly the configuration of that type, also when
    decoding that configuration fails, and an unsupported type gives an
    error and no configuration. *)
Theorem unmarshal_into_zero (data : list Byte.byte) :
  match unmarshalGeneric data with
  | inl err => UnmarshalJSON piped.zeroCloudProvider data = (piped.zeroCloudProvider, Some err)
  | inr gp =>
      let '(p, err) := UnmarshalJSON piped.zeroCloudProvider data in
      piped.PipedCloudProvider.Name p = piped.genericPipedCloudProvider.Name gp /\
      piped.PipedCloudProvider.Type_ p = piped.genericPipedCloudProvider.Type_ gp /\
      piped.configured p =
        piped.expected_configuration (piped.genericPipedCloudProvider.Type_ gp) /\
      (piped.expected_configuration (piped.genericPipedCloudProvider.Type_ gp) =
         (false, false, false, false) ->
       err = Some (ErrOther ("unsupported cloud provider type: " +:+
                               piped.genericPipedCloudProvider.Name gp)))
  end.
Proof.
  unfold piped.UnmarshalJSON.
  destruct (unmarshalGeneric data) as [err|gp]; [done|].
  destruct (piped.genericPipedCloudProvider.Type_ gp);
    try (destruct (piped.decodeConfig _ _ _) as [c err]); by split_and!.
Qed.

(** X9: decoding never takes a configuration away from the provider it
    decodes into: a configuration the provider held before is still there
    afterwards, whatever the type decoded. *)
Theorem unmarshal_keeps_configurations (p : piped.PipedCloudProvider.t)
    (data : list Byte.byte) :
  let p' := (UnmarshalJSON p data).1 in
  (is_Some (piped.PipedCloudProvider.KubernetesConfig p) ->
   is_Some (piped.PipedCloudProvider.KubernetesConfig p')) /\
  (is_Some (piped.PipedCloudProvider.TerraformConfig p) ->
   is_Some (piped.PipedCloudProvider.TerraformConfig p')) /\
  (is_Some (piped.PipedCloudProvider.CloudRunConfig p) ->
   is_Some (piped.PipedCloudProvider.CloudRunConfig p')) /\
  (is_Some (piped.PipedCloudProvider.LambdaConfig p) ->
   is_Some (piped.PipedCloudProvider.LambdaConfig p')).
Proof.
  unfold piped.UnmarshalJSON.
  destruct (unmarshalGeneric data) as [err|gp]; [done|].
  destruct (piped.genericPipedCloudProvider.Type_ gp);
    try (destruct (piped.decodeConfig _ _ _) as [c err]); simpl; by split_and!.
Qed.

(** X10: with an empty configuration document, a supported provider type
    decodes without an error into the zero configuration of that type. *)
Theorem unmarshal_empty_configuration (p : piped.PipedCloudProvider.t)
    (data : list Byte.byte) (gp : piped.genericPipedCloudProvider.t) :
  unmarshalGeneric data = inr gp ->
  piped.genericPipedCloudProvider.Config gp = [] ->
  match piped.genericPipedCloudProvider.Type_ gp with
  | piped.CloudProviderKubernetes =>
      (UnmarshalJSON p data).2 = None /\
      piped.PipedCloudProvider.KubernetesConfig (UnmarshalJSON p data).1 =
        Some piped.CloudProviderKubernetesConfig.zero
  | piped.CloudProviderTerraform =>
      (UnmarshalJSON p data).2 = None /\
      piped.PipedCloudProvider.TerraformConfig (UnmarshalJSON p data).1 =
        Some piped.CloudProviderTerraformConfig.zero
  | piped.CloudProviderCloudRun =>
      (UnmarshalJSON p data).2 = None /\
      piped.PipedCloudProvider.CloudRunConfig (UnmarshalJSON p data).1 =
        Some piped.CloudProviderCloudRunConfig.zero
  | piped.CloudProviderLambda =>
      (UnmarshalJSON p data).2 = None /\
      piped.PipedCloudProvider.LambdaConfig (UnmarshalJSON p data).1 =
        Some piped.CloudProviderLambdaConfig.zero
  | piped.CloudProviderOther _ => (UnmarshalJSON p data).2 <> None
  end.
Proof.
  intros Hgp Hempty. unfold piped.UnmarshalJSON, piped.decodeConfig.
  rewrite Hgp, Hempty. by destruct (piped.genericPipedCloudProvider.Type_ gp).
Qed.

End UnmarshalJSONProperties.

(* ===================================================================== *)
(** ** Properties of the web pages *)
(* ===================================================================== *)

Section Grouping.

Context {A : Type}.
Variable inherited : string -> bool.
Variable key : A -> option string.
(** One turn of a grouping loop. *)
Variable f : option (gmap string (list A)) -> A -> option (gmap string (list A)).
Hypothesis f_thrown : forall x, f None x = None.
Hypothesis f_turn : forall o x,
  f (Some o) x =
  match key x with None => Some o | Some k => web.push inherited o k x end.

Lemma filed_cons (x : A) (l : list A) (k : string) :
  filed key (x :: l) k =
  if bool_decide (key x = Some k) then x :: filed key l k else filed key l k.
Proof. done. Qed.

Lemma foldl_thrown (l : list A) : foldl f None l = None.
Proof using f_thrown. induction l as [|x l IH]; simpl; [done|]. by rewrite f_thrown. Qed.

Lemma push_ok (o : gmap string (list A)) (k : string) (x : A) :
  inherited k = false ->
  web.push inherited o k x = Some (<[k := default [] (o !! k) ++ [x]]> o).
Proof. intros Hk. unfold web.push. destruct (o !! k); simpl; [done|]. by rewrite Hk. Qed.

Lemma grouping_fold (l : list A) (o : gmap string (list A)) :
  Forall (fun x => forall k, key x = Some k -> inherited k = false) l ->
  exists o', foldl f (Some o) l = Some o' /\
    forall k, o' !! k =
      match filed key l k with
      | [] => o !! k
      | g => Some (default [] (o !! k) ++ g)
      end.
Proof using f_thrown f_turn.
  revert o. induction l as [|x l IH]; intros o Hl.
  { exists o. by split. }
  apply Forall_cons in Hl as [Hx Hl]. cbn [foldl]. rewrite f_turn.
  destruct (key x) as [k0|] eqn:Hkey.
  - rewrite push_ok by (by apply Hx).
    destruct (IH (<[k0 := default [] (o !! k0) ++ [x]]> o) Hl) as (o' & -> & Ho'). exists o'. split; [done|].
    intros k. rewrite Ho', filed_cons, Hkey.
    destruct (decide (k0 = k)) as [->|Hne].
    + rewrite bool_decide_eq_true_2, lookup_insert_eq by done.
      destruct (filed key l k); simpl; [done|]. by rewrite <- app_assoc.
    + rewrite bool_decide_eq_false_2, lookup_insert_ne by congruence. done.
  - destruct (IH o Hl) as (o' & -> & Ho'). exists o'. split; [done|].
    intros k. rewrite Ho', filed_cons, Hkey. by rewrite bool_decide_eq_false_2.
Qed.

Lemma grouping_throws (l : list A) (o : gmap string (list A)) :
  (forall k, is_Some (o !! k) -> inherited k = false) ->
  foldl f (Some o) l = None <->
  Exists (fun x => exists k, key x = Some k /\ inherited k = true) l.
Proof using f_thrown f_turn.
  revert o. induction l as [|x l IH]; intros o Ho; simpl.
  { split; [done|]. by intros ?%Exists_nil. }
  rewrite f_turn, Exists_cons.
  destruct (key x) as [k0|] eqn:Hkey.
  - unfold web.push. destruct (o !! k0) as [xs|] eqn:Hlook.
    + assert (inherited k0 = false) as Hk0 by (apply Ho; by rewrite Hlook).
      rewrite IH.
      * split; [by right|]. intros [(k & [= <-] & ?)|?]; [congruence|done].
      * intros k. destruct (decide (k0 = k)) as [<-|?]; [done|].
        rewrite lookup_insert_ne by done. apply Ho.
    + destruct (inherited k0) eqn:Hk0.
      * rewrite foldl_thrown. split; [|done]. intros _. left. by exists k0.
      * rewrite IH.
        -- split; [by right|]. intros [(k & [= <-] & ?)|?]; [congruence|done].
        -- intros k. destruct (decide (k0 = k)) as [<-|?]; [done|].
           rewrite lookup_insert_ne by done. apply Ho.
  - rewrite IH by done. split; [by right|]. by intros [(k & ? & _)|?].
Qed.

End Grouping.

Lemma property_filed {A : Type} (key : A -> option string) (l : list A) (k : string) :
  match filed key l k with
  | [] => (∅ : gmap string (list A)) !! k
  | g => Some (default [] ((∅ : gmap string (list A)) !! k) ++ g)
  end = property (filed key l k).
Proof. rewrite lookup_empty. by destruct (filed key l k). Qed.

Section DeploymentIndexPageProperties.

Variable inherited : string -> bool.
Variable DeploymentsState : Type.
Variable selectDeploymentIds : DeploymentsState -> list string.
Variable selectDeploymentById : DeploymentsState -> string -> option web.Deployment.AsObject.
Variable format : Z -> string.

Local Abbreviation deployments := (web.deployments DeploymentsState selectDeploymentIds selectDeploymentById).
Local Abbreviation useGroupedDeployments :=
  (web.useGroupedDeployments inherited DeploymentsState selectDeploymentIds
     selectDeploymentById format).

(** X17: when no date string is a name of [Object.prototype], the grouping
    of the deployments page returns an object that has, for each date, the
    selected deployments of that date in the order of the selection, and no
    property for a date without deployments. *)
Theorem deployments_grouped_by_date (state : DeploymentsState) :
  Forall (fun d => inherited (web.dateStr format d) = false) (deployments state) ->
  exists result,
    useGroupedDeployments state = Some result /\
    forall k, result !! k = property (filed (by_date format) (deployments state) k).
Proof.
  intros Hdates. unfold web.useGroupedDeployments.
  edestruct (grouping_fold inherited (by_date format)
               (fun result deployment =>
                  result ← result;
                  web.push inherited result (web.dateStr format deployment) deployment))
    as (o' & -> & Ho'); [done|done| |].
  - eapply Forall_impl; [exact Hdates|]. intros d Hd k [= <-]. exact Hd.
  - exists o'. split; [done|]. intros k. by rewrite Ho', property_filed.
Qed.

End DeploymentIndexPageProperties.

Section LiveStateViewProperties.

Variable inherited : string -> bool.

Lemma resources_turn (o : gmap string (list web.ResourceState.AsObject))
    (x : web.ResourceState.AsObject) :
  (let deployTarget := web.ResourceState.deployTarget x in
   if String.eqb deployTarget EmptyString then Some o
   else web.push inherited o deployTarget x) =
  match by_target x with None => Some o | Some k => web.push inherited o k x end.
Proof. unfold by_target. simpl. by destruct (String.eqb _ _). Qed.

(** X18: when no deploy target is a name of [Object.prototype], the
    grouping of the live state view returns an object that has, for each
    deploy target, the resources of that target in the order of the list;
    the resources without a deploy target are in no group. *)
Theorem resources_grouped_by_target (allResources : list web.ResourceState.AsObject) :
  Forall (fun r => inherited (web.ResourceState.deployTarget r) = false) allResources ->
  exists result,
    web.resourcesByDeployTarget inherited allResources = Some result /\
    (forall k, result !! k = property (filed by_target allResources k)) /\
    (forall r rs k, result !! k = Some rs -> In r rs ->
                    web.ResourceState.deployTarget r = k /\ k <> EmptyString).
Proof.
  intros Htargets. unfold web.resourcesByDeployTarget.
  edestruct (grouping_fold inherited by_target
               (fun all resource =>
                  all ← all;
                  let deployTarget := web.ResourceState.deployTarget resource in
                  if String.eqb deployTarget EmptyString then Some all
                  else web.push inherited all deployTarget resource))
    as (o' & -> & Ho'); [done|intros; apply resources_turn| |].
  - eapply Forall_impl; [exact Htargets|]. intros r Hr k. unfold by_target.
    destruct (String.eqb _ _); [done|]. by intros [= <-].
  - assert (forall k, o' !! k = property (filed by_target allResources k)) as Hall.
    { intros k. by rewrite Ho', property_filed. }
    exists o'. split_and!; [done|done|].
    intros r rs k Hk Hin. rewrite Hall in Hk.
    assert (In r (filed by_target allResources k)) as Hr.
    { destruct (filed by_target allResources k); simpl in Hk; by simplify_eq. }
    apply filter_In in Hr as [_ Hr]. apply bool_decide_eq_true in Hr.
    unfold by_target in Hr.
    destruct (String.eqb _ _) eqn:Hempty; [done|].
    injection Hr as <-. split; [done|]. by apply String.eqb_neq.
Qed.

(** X19: the grouping of the live state view throws exactly when some
    resource has a deploy target that is not empty and is a name of
    [Object.prototype]. *)
Theorem resources_grouping_throws (allResources : list web.ResourceState.AsObject) :
  web.resourcesByDeployTarget inherited allResources = None <->
  Exists (fun r => web.ResourceState.deployTarget r <> EmptyString /\
                   inherited (web.ResourceState.deployTarget r) = true) allResources.
Proof.
  unfold web.resourcesByDeployTarget.
  rewrite (grouping_throws inherited by_target
             (fun all resource =>
                all ← all;
                let deployTarget := web.ResourceState.deployTarget resource in
                if String.eqb deployTarget EmptyString then Some all
                else web.push inherited all deployTarget resource));
    [|done|intros; apply resources_turn|by intros k [? ?]].
  split; intros H; (eapply Exists_impl; [exact H|]); intros r; unfold by_target;
    destruct (String.eqb _ _) eqn:Hempty.
  - by intros (? & ? & _).
  - apply String.eqb_neq in Hempty. by intros (k & [= <-] & ?).
  - apply String.eqb_eq in Hempty. by intros [? _].
  - intros [_ ?]. by eexists.
Qed.

End LiveStateViewProperties.

Lemma split_nonempty (sep : Ascii.ascii) (s : string) : web.split sep s <> [].
Proof.
  destruct s as [|c rest]; simpl; [done|].
  destruct (Ascii.eqb c sep); [done|]. by destruct (web.split sep rest).
Qed.

Lemma split_cons_inv (sep : Ascii.ascii) (s p : string) (ps : list string) :
  web.split sep s = p :: ps ->
  has_char sep p = false /\
  ((ps = [] /\ s = p) \/
   exists rest, s = p +:+ String sep rest /\ web.split sep rest = ps).
Proof.
  revert p ps. induction s as [|c rest IH]; intros p ps; simpl.
  { intros [= <- <-]. split; [done|]. by left. }
  destruct (Ascii.eqb c sep) eqn:Hc.
  - apply Ascii.eqb_eq in Hc as ->. intros [= <- <-]. split; [done|].
    right. by exists rest.
  - destruct (web.split sep rest) as [|piece pieces] eqn:Hrest.
    { by apply split_nonempty in Hrest. }
    intros [= <- <-]. destruct (IH _ _ eq_refl) as [Hpiece Hcases].
    split; [simpl; by rewrite Hc|].
    destruct Hcases as [[-> ->]|(rest' & -> & <-)]; [by left|].
    right. by exists rest'.
Qed.

Lemma split_no_sep (sep : Ascii.ascii) (s : string) :
  has_char sep s = false -> web.split sep s = [s].
Proof.
  induction s as [|c rest IH]; simpl; [done|].
  intros [Hc Hrest]%orb_false_iff. by rewrite Hc, IH.
Qed.

Lemma split_at_sep (sep : Ascii.ascii) (a b : string) :
  has_char sep a = false ->
  web.split sep (a +:+ String sep b) = a :: web.split sep b.
Proof.
  induction a as [|c a IH]; simpl.
  { intros _. by rewrite Ascii.eqb_refl. }
  intros [Hc Ha]%orb_false_iff. by rewrite Hc, IH.
Qed.

Lemma split_pair (sep : Ascii.ascii) (label k v : string) :
  web.split sep label = [k; v] <->
  label = k +:+ String sep v /\ has_char sep k = false /\ has_char sep v = false.
Proof.
  split.
  - intros (Hk & [[? _]|(rest & -> & Hrest)])%split_cons_inv; [done|].
    apply split_cons_inv in Hrest as (Hv & [[_ ->]|(? & _ & ?%split_nonempty)]);
      done.
  - intros (-> & Hk & Hv). by rewrite split_at_sep, split_no_sep.
Qed.

Section LabelProperties.
Import Stdlib.Strings.Ascii.

(** X20: the label filter of the deployment frequency fetch keeps a label
    exactly when it has one colon, as the pair of what is before the colon
    and what is after it; a label with no colon or with more than one is
    left out. *)
Theorem labels_with_one_colon (labels : list string) (k v : string) :
  In (k, v) (web.deploymentFrequency.labelsMap (Some labels)) <->
  In (k +:+ ":" +:+ v) labels /\ has_colon k = false /\ has_colon v = false.
Proof.
  unfold web.deploymentFrequency.labelsMap, has_colon.
  enough (forall acc,
    In (k, v) (foldl (fun acc label =>
                        match web.split ":"%char label with
                        | [k; v] => acc ++ [(k, v)]
                        | _ => acc
                        end) acc labels) <->
    In (k, v) acc \/
    (In (k +:+ ":" +:+ v) labels /\ has_char ":"%char k = false /\
     has_char ":"%char v = false)) as Hgen.
  { rewrite Hgen. simpl. split; [by intros [[]|?]|by right]. }
  induction labels as [|label labels IH]; intros acc; simpl.
  { split; [by left|by intros [?|[[] _]]]. }
  rewrite IH. clear IH.
  destruct (web.split ":"%char label) as [|k' [|v' [|]]] eqn:Hsplit.
  1,2,4: split; (intros [?|(Hin & Hk & Hv)]; [by left|]); right;
         [by split_and!; [right|..]|];
         split_and!; [|done..];
         destruct Hin as [->|?]; [|done];
         (assert (web.split ":"%char (k +:+ ":" +:+ v) = [k; v]) as Hs
            by (by apply split_pair)); simpl in Hs; congruence.
  apply split_pair in Hsplit as (-> & Hk' & Hv').
  rewrite in_app_iff. simpl. split.
  - intros [[?|[[= <- <-]|[]]]|(? & ? & ?)]; [by left|right|right].
    + split_and!; [by left|done..].
    + split_and!; [by right|done..].
  - intros [?|([Heq|?] & Hk & Hv)]; [left; by left| |right; by split_and!].
    left. right. left.
    assert (web.split ":"%char (k +:+ ":" +:+ v) = [k; v]) as Hs by (by apply split_pair).
    simpl in Hs. simpl in Heq. rewrite <- Heq in Hs.
    rewrite split_at_sep, split_no_sep in Hs by done. by simplify_eq.
Qed.

End LabelProperties.

(** X21: in the deployment frequency slice the two fetches do not touch
    each other's half of the state: after any sequence of actions the
    status and the data are what the actions of the first fetch alone leave,
    and the 24h status and data what those of the second alone leave. *)
Theorem fetches_do_not_interfere (state : web.deploymentFrequency.DeploymentFrequencyState)
    (acts : list web.deploymentFrequency.Action) :
  let final := foldl web.deploymentFrequency.reducer state acts in
  let first := foldl web.deploymentFrequency.reducer state (List.filter of_fetch acts) in
  let second := foldl web.deploymentFrequency.reducer state (List.filter of_fetch24h acts) in
  web.deploymentFrequency.status final = web.deploymentFrequency.status first /\
  web.deploymentFrequency.data final = web.deploymentFrequency.data first /\
  web.deploymentFrequency.status24h final = web.deploymentFrequency.status24h second /\
  web.deploymentFrequency.data24h final = web.deploymentFrequency.data24h second /\
  web.deploymentFrequency.status24h first = web.deploymentFrequency.status24h state /\
  web.deploymentFrequency.data24h first = web.deploymentFrequency.data24h state /\
  web.deploymentFrequency.status second = web.deploymentFrequency.status state /\
  web.deploymentFrequency.data second = web.deploymentFrequency.data state.
Proof.
  cbv zeta.
  enough (forall s1 s2 s3,
    web.deploymentFrequency.status s1 = web.deploymentFrequency.status s2 ->
    web.deploymentFrequency.data s1 = web.deploymentFrequency.data s2 ->
    web.deploymentFrequency.status24h s1 = web.deploymentFrequency.status24h s3 ->
    web.deploymentFrequency.data24h s1 = web.deploymentFrequency.data24h s3 ->
    web.deploymentFrequency.status24h s2 = web.deploymentFrequency.status24h state ->
    web.deploymentFrequency.data24h s2 = web.deploymentFrequency.data24h state ->
    web.deploymentFrequency.status s3 = web.deploymentFrequency.status state ->
    web.deploymentFrequency.data s3 = web.deploymentFrequency.data state ->
    let final := foldl web.deploymentFrequency.reducer s1 acts in
    let first := foldl web.deploymentFrequency.reducer s2 (List.filter of_fetch acts) in
    let second := foldl web.deploymentFrequency.reducer s3 (List.filter of_fetch24h acts) in
    web.deploymentFrequency.status final = web.deploymentFrequency.status first /\
    web.deploymentFrequency.data final = web.deploymentFrequency.data first /\
    web.deploymentFrequency.status24h final = web.deploymentFrequency.status24h second /\
    web.deploymentFrequency.data24h final = web.deploymentFrequency.data24h second /\
    web.deploymentFrequency.status24h first = web.deploymentFrequency.status24h state /\
    web.deploymentFrequency.data24h first = web.deploymentFrequency.data24h state /\
    web.deploymentFrequency.status second = web.deploymentFrequency.status state /\
    web.deploymentFrequency.data second = web.deploymentFrequency.data state) as Hgen.
  { by apply Hgen. }
  induction acts as [|a acts IH]; intros s1 s2 s3 ? ? ? ? ? ? ? ?; cbv zeta.
  { by split_and!. }
  destruct a; simpl; apply IH; simpl; congruence.
Qed.

Lemma default_last_cons {A : Type} (d x : A) (l : list A) :
  default d (last (x :: l)) = default x (last l).
Proof. rewrite last_cons. by destruct (last l). Qed.

(** X22: after any sequence of actions from the initial state, the data of
    the deployment frequency slice is the payload of the latest fulfilled
    fetch (empty when there was none), also when a later fetch is pending or
    was rejected; the status is the one of the latest action of that fetch
    (idle when there was none). *)
Theorem data_is_latest_payload (acts : list web.deploymentFrequency.Action) :
  let final := foldl web.deploymentFrequency.reducer
                 web.deploymentFrequency.initialState acts in
  web.deploymentFrequency.data final = default [] (last (payloads acts)) /\
  web.deploymentFrequency.data24h final = default [] (last (payloads24h acts)) /\
  web.deploymentFrequency.status final =
    default web.deploymentFrequency.idle (last (omap status_of acts)).
Proof.
  cbv zeta.
  enough (forall s,
    let final := foldl web.deploymentFrequency.reducer s acts in
    web.deploymentFrequency.data final =
      default (web.deploymentFrequency.data s) (last (payloads acts)) /\
    web.deploymentFrequency.data24h final =
      default (web.deploymentFrequency.data24h s) (last (payloads24h acts)) /\
    web.deploymentFrequency.status final =
      default (web.deploymentFrequency.status s) (last (omap status_of acts))) as Hgen.
  { apply Hgen. }
  induction acts as [|a acts IH]; intros s; cbv zeta; [done|].
  cbn [foldl]. destruct (IH (web.deploymentFrequency.reducer s a)) as (-> & -> & ->).
  unfold payloads, payloads24h.
  destruct a; cbn -[last]; by rewrite ?default_last_cons.
Qed.

(* ===================================================================== *)
(** ** The further properties at work *)
(* ===================================================================== *)

(** X5 on a piped with the repositories [app] and [infra]. *)
Lemma repository_lookups_agree_witness :
  NoDup (piped.PipedRepository.RepoID <$> piped.PipedSpec.Repositories sample.spec) /\
  (piped.GetRepositoryMap sample.spec !! "infra"%string = Some (sample.repository "infra") <->
   piped.GetRepository sample.spec "infra" = (sample.repository "infra", true)).
Proof.
  assert (Hnd : NoDup (piped.PipedRepository.RepoID <$>
                         piped.PipedSpec.Repositories sample.spec))
    by (apply (bool_decide_unpack _); vm_compute; exact I).
  split; [exact Hnd|].
  exact (repository_lookups_agree sample.spec "infra" (sample.repository "infra") Hnd).
Defined.

(** X10 on a Lambda provider without a configuration document. *)
Lemma unmarshal_empty_configuration_witness :
  let decoded :=
    piped.UnmarshalJSON sample.unmarshalGeneric sample.unmarshalConfig
      sample.unmarshalConfig sample.unmarshalConfig sample.unmarshalConfig
      piped.zeroCloudProvider sample.document in
  sample.unmarshalGeneric sample.document =
    inr {| piped.genericPipedCloudProvider.Name := "lambda-dev";
           piped.genericPipedCloudProvider.Type_ := piped.CloudProviderLambda;
           piped.genericPipedCloudProvider.Config := [] |} /\
  decoded.2 = None /\
  piped.PipedCloudProvider.LambdaConfig decoded.1 =
    Some piped.CloudProviderLambdaConfig.zero.
Proof.
  assert (Hgp : sample.unmarshalGeneric sample.document =
                inr {| piped.genericPipedCloudProvider.Name := "lambda-dev";
                       piped.genericPipedCloudProvider.Type_ := piped.CloudProviderLambda;
                       piped.genericPipedCloudProvider.Config := [] |})
    by reflexivity.
  split; [exact Hgp|].
  exact (unmarshal_empty_configuration sample.unmarshalGeneric sample.unmarshalConfig
           sample.unmarshalConfig sample.unmarshalConfig sample.unmarshalConfig
           piped.zeroCloudProvider sample.document _ Hgp eq_refl).
Defined.

(** X11 on a rollback whose [ModifyListeners] fails. *)
Lemma rollback_logs_one_error_witness :
  sample.partial_rollback = (false, sample.partial_rollback.1.2, 7) /\
  length (error_logs sample.partial_rollback.1.2) = 1.
Proof.
  assert (Hrun : sample.partial_rollback = (false, sample.partial_rollback.1.2, 7))
    by (vm_compute; reflexivity).
  split; [exact Hrun|].
  exact (rollback_logs_one_error sim.canaryTargetGroupArnKey (sim.registry sim.partial)
           sim.applyServiceDefinition
           (sim.input sim.StageRollback sim.deployed ∅) "ecs-default" sim.providerCfg
           sim.taskDefinition sim.serviceDefinition
           (Some sim.primaryGroup) (Some sim.canaryGroup) 0 7 false _ Hrun).
Defined.

(** X12 on a rollback that takes the canary target group from the
    metadata. *)
Lemma rollback_metadata_reads_witness :
  sample.recorded_rollback = (true, sample.recorded_rollback.1.2, 8) /\
  (metadata_reads sample.recorded_rollback.1.2 = [] \/
   (metadata_reads sample.recorded_rollback.1.2 = [sim.canaryTargetGroupArnKey] /\
    is_Some (Some sim.primaryGroup) /\ (None : option types.LoadBalancer) = None)).
Proof.
  assert (Hrun : sample.recorded_rollback = (true, sample.recorded_rollback.1.2, 8))
    by (vm_compute; reflexivity).
  split; [exact Hrun|].
  exact (rollback_metadata_reads sim.canaryTargetGroupArnKey (sim.registry sim.healthy)
           sim.applyServiceDefinition
           (sim.input sim.StageRollback sim.deployed sim.recorded) "ecs-default"
           sim.providerCfg sim.taskDefinition sim.serviceDefinition
           (Some sim.primaryGroup) None 0 8 true _ Hrun).
Defined.

(** X13 on a registry without credentials. *)
Lemma rollback_without_client_witness :
  sample.unreachable "ecs-default" sim.providerCfg = inl (ErrOther "no credentials") /\
  exists evs,
    sample.unreachable_rollback = (false, evs, 0) /\
    remote_calls evs = [] /\ metadata_reads evs = [] /\
    client_lookups evs = ["ecs-default"%string] /\ length (error_logs evs) = 1.
Proof.
  assert (Hreg : sample.unreachable "ecs-default" sim.providerCfg =
                 inl (ErrOther "no credentials")) by reflexivity.
  split; [exact Hreg|].
  exact (rollback_without_client sim.canaryTargetGroupArnKey sample.unreachable
           sim.applyServiceDefinition
           (sim.input sim.StageRollback sim.deployed ∅) "ecs-default" sim.providerCfg
           sim.taskDefinition sim.serviceDefinition
           (Some sim.primaryGroup) (Some sim.canaryGroup) 0 _ Hreg).
Defined.

(** X14 on a service without target groups. *)
Lemma service_level_rollback_witness :
  sample.service_rollback = (true, sample.service_rollback.1.2, 6) /\
  (forall c r, In (EvCall c r) sample.service_rollback.1.2 -> is_listener_call c = false) /\
  metadata_reads sample.service_rollback.1.2 = [].
Proof.
  assert (Hrun : sample.service_rollback = (true, sample.service_rollback.1.2, 6))
    by (vm_compute; reflexivity).
  split; [exact Hrun|].
  exact (service_level_rollback sim.canaryTargetGroupArnKey (sim.registry sim.healthy)
           sim.applyServiceDefinition
           (sim.input sim.StageRollback sim.deployed ∅) "ecs-default" sim.providerCfg
           sim.taskDefinition sim.serviceDefinition None 0 6 true _ Hrun).
Defined.


(** X16 on the healthy platform, which has one previous task set. *)
Lemma stage_success_guarantees_witness :
  sample.healthy_stage =
    (model.StageStatus_STAGE_SUCCESS, sample.healthy_stage.1.2, 8) /\
  (forall c r, In (EvCall c r) sample.healthy_stage.1.2 -> failed_step c r = false) /\
  (exists svc td' tg ts ts',
      In (EvCall (CCreateTaskSet svc td' tg 100) (RTaskSet (inr ts)))
         sample.healthy_stage.1.2 /\
      In (EvCall (CUpdateServicePrimaryTaskSet svc ts) (RTaskSet (inr ts')))
         sample.healthy_stage.1.2) /\
  (forall svc prev t,
      In (EvCall (CGetServiceTaskSets svc) (RTaskSets (inr prev)))
         sample.healthy_stage.1.2 ->
      In t prev ->
      In (EvCall (CDeleteTaskSet t) (RDeleted None)) sample.healthy_stage.1.2).
Proof.
  assert (Hrun : sample.healthy_stage =
                 (model.StageStatus_STAGE_SUCCESS, sample.healthy_stage.1.2, 8))
    by (vm_compute; reflexivity).
  split; [exact Hrun|].
  exact (stage_success_guarantees sim.canaryTargetGroupArnKey (sim.registry sim.healthy)
           sim.applyServiceDefinition
           sim.findPlatformProvider sim.loadTaskDefinition sim.loadServiceDefinition
           (sim.loadTargetGroups sim.both_groups)
           (sim.input sim.StageRollback sim.deployed ∅) 0 8 _ Hrun).
Defined.

(** X17 on three deployments of two days. *)
Lemma deployments_grouped_by_date_witness :
  Forall (fun d => sample.inherited (web.dateStr sample.format d) = false)
    (web.deployments _ sample.selectDeploymentIds sample.selectDeploymentById
       sample.store) /\
  exists result,
    web.useGroupedDeployments sample.inherited _ sample.selectDeploymentIds
      sample.selectDeploymentById sample.format sample.store = Some result /\
    forall k, result !! k =
      property (filed (by_date sample.format)
                  (web.deployments _ sample.selectDeploymentIds
                     sample.selectDeploymentById sample.store) k).
Proof.
  assert (Hdates :
    Forall (fun d => sample.inherited (web.dateStr sample.format d) = false)
      (web.deployments _ sample.selectDeploymentIds sample.selectDeploymentById
         sample.store))
    by (apply (bool_decide_unpack _); vm_compute; exact I).
  split; [exact Hdates|].
  exact (deployments_grouped_by_date sample.inherited _ sample.selectDeploymentIds
           sample.selectDeploymentById sample.format sample.store Hdates).
Defined.

(** X18 on four resources of two clusters, one of them without a deploy
    target. *)
Lemma resources_grouped_by_target_witness :
  Forall (fun r => sample.inherited (web.ResourceState.deployTarget r) = false)
    sample.resources /\
  exists result,
    web.resourcesByDeployTarget sample.inherited sample.resources = Some result /\
    (forall k, result !! k = property (filed by_target sample.resources k)) /\
    (forall r rs k, result !! k = Some rs -> In r rs ->
                    web.ResourceState.deployTarget r = k /\ k <> EmptyString).
Proof.
  assert (Htargets :
    Forall (fun r => sample.inherited (web.ResourceState.deployTarget r) = false)
      sample.resources)
    by (apply (bool_decide_unpack _); vm_compute; exact I).
  split; [exact Htargets|].
  exact (resources_grouped_by_target sample.inherited sample.resources Htargets).
Defined.
